(** * MedAlertAI: the reminder subsystem, embedded and verified

    A shallow embedding of the reminder scheduling and delivery code of
    [backend/services/notification_scheduler.py] and of the preference
    lookup of [backend/utils/user_manager.py].

    Conventions of the embedding.
    - A Python [str] is a [string]; the characters are ASCII (code points
      below 128), the only ones on which [str.upper], [str.lower],
      [str.strip] and [int] are modelled. A property that depends on
      what these do to a text assumes an ASCII text.
    - A Python [int] is a [Z].
    - A [try: ... except Exception] block is a computation in [option]
      ([None]: an exception was raised) followed by the handler.
    - A [dict] is a [gmap]; the JSON files under [data/] are finite maps
      from file names to their decoded contents.
    - A naive [datetime] is a calendar day (proleptic ordinal) and the
      microsecond of that day; the clock reads of one call are taken at
      one instant [now]. *)

From Stdlib Require Import ZArith NArith String Ascii List Bool Lia.
From Stdlib Require Import Numbers.DecimalString.
From stdpp Require Import gmap strings list fin_maps.

Local Open Scope string_scope.
Local Open Scope Z_scope.

(** ** Python string primitives *)

Module PyStr.

(** Characters that [str.isspace] accepts below 128: TAB, LF, VT, FF, CR,
    FS, GS, RS, US and the blank. *)
Definition is_space (c : ascii) : bool :=
  let n := N_of_ascii c in
  ((9 <=? n) && (n <=? 13) || (28 <=? n) && (n <=? 32))%N.

Definition upper_char (c : ascii) : ascii :=
  let n := N_of_ascii c in
  if ((97 <=? n) && (n <=? 122))%N then ascii_of_N (n - 32) else c.

Definition lower_char (c : ascii) : ascii :=
  let n := N_of_ascii c in
  if ((65 <=? n) && (n <=? 90))%N then ascii_of_N (n + 32) else c.

Fixpoint map_chars (f : ascii -> ascii) (s : string) : string :=
  match s with
  | EmptyString => EmptyString
  | String c r => String (f c) (map_chars f r)
  end.

(** [s.upper()], [s.lower()] of an ASCII text; the methods of Python
    also change the letters beyond ASCII. *)
Definition upper : string -> string := map_chars upper_char.
Definition lower : string -> string := map_chars lower_char.

(** Leading, trailing and surrounding characters of a class removed. *)
Fixpoint lstrip_by (f : ascii -> bool) (s : string) : string :=
  match s with
  | EmptyString => EmptyString
  | String c r => if f c then lstrip_by f r else s
  end.

Fixpoint rstrip_by (f : ascii -> bool) (s : string) : string :=
  match s with
  | EmptyString => EmptyString
  | String c r =>
      match rstrip_by f r with
      | EmptyString => if f c then EmptyString else String c EmptyString
      | r' => String c r'
      end
  end.

Definition strip_by (f : ascii -> bool) (s : string) : string :=
  rstrip_by f (lstrip_by f s).

(** [s.strip()] *)
Definition strip (s : string) : string := strip_by is_space s.

(** [s.startswith(p)] *)
Definition startswith (p s : string) : bool := String.prefix p s.

(** [sub in s] *)
Fixpoint contains (sub s : string) : bool :=
  String.prefix sub s ||
  match s with
  | EmptyString => false
  | String _ r => contains sub r
  end.

(** [s.replace(old, new, count)] for a non-empty [old]: occurrences are
    found left to right and do not overlap. [skip] counts the characters
    of the occurrence being replaced that are still to be dropped;
    [count = None] replaces every occurrence. *)
Fixpoint replace_go (old new : string) (count : option nat) (skip : nat)
    (s : string) : string :=
  match s with
  | EmptyString => EmptyString
  | String c r =>
      match skip with
      | S k => replace_go old new count k r
      | O =>
          let stop := match count with Some O => true | _ => false end in
          if negb stop && String.prefix old s then
            new +:+ replace_go old new (Nat.pred <$> count)
                      (Nat.pred (String.length old)) r
          else String c (replace_go old new count O r)
      end
  end.

Definition replace (old new s : string) : string :=
  replace_go old new None O s.

Definition replace_n (old new : string) (count : nat) (s : string) : string :=
  replace_go old new (Some count) O s.

(** [s.split(sep)] for a one-character separator; never empty. *)
Fixpoint split (sep : ascii) (s : string) : list string :=
  match s with
  | EmptyString => [EmptyString]
  | String c r =>
      if Ascii.eqb c sep then EmptyString :: split sep r
      else match split sep r with
           | x :: xs => String c x :: xs
           | [] => [String c EmptyString]
           end
  end.

(** [a, b = parts]: raises unless there are exactly two parts. *)
Definition unpack2 (parts : list string) : option (string * string) :=
  match parts with
  | [a; b] => Some (a, b)
  | _ => None
  end.

Definition digit_of (c : ascii) : option Z :=
  let n := N_of_ascii c in
  if ((48 <=? n) && (n <=? 57))%N then Some (Z.of_N (n - 48)) else None.

(** The digits of an [int] literal in base ten: at least one digit, single
    underscores allowed between digits. *)
Fixpoint int_digits (acc : Z) (after_digit : bool) (s : string) : option Z :=
  match s with
  | EmptyString => if after_digit then Some acc else None
  | String c r =>
      match digit_of c with
      | Some d => int_digits (10 * acc + d) true r
      | None =>
          if Ascii.eqb c "_" && after_digit then int_digits acc false r
          else None
      end
  end.

(** The white space that [int] skips in an ASCII text: TAB, LF, VT, FF, CR
    and the blank (not FS, GS, RS, US, which [strip] removes). *)
Definition is_int_space (c : ascii) : bool :=
  let n := N_of_ascii c in
  ((9 <=? n) && (n <=? 13) || (n =? 32))%N.

(** [int(s)]: surrounding white space, an optional sign, then the digits;
    [None] stands for [ValueError]. (The limit that recent interpreters
    put on the number of digits, 4300 by default, is not modelled.) *)
Definition int (s : string) : option Z :=
  match strip_by is_int_space s with
  | String "-" r => Z.opp <$> int_digits 0 false r
  | String "+" r => int_digits 0 false r
  | t => int_digits 0 false t
  end.

(** [str(n)] for an [int] *)
Definition str (n : Z) : string := NilZero.string_of_int (Z.to_int n).

(** [f"{n:02d}"]: zero padding to width two, the sign counted in. *)
Definition fmt02d (n : Z) : string :=
  if (0 <=? n) && (n <? 10) then "0" +:+ str n else str n.

End PyStr.

(** ** The timing parser: [MedicationScheduler._parse_time] *)

Module Parser.
Import PyStr.

(** The body of the [try] block; [None] when an exception is raised
    ([ValueError] of [int], of the two-name unpacking, or the explicit
    [raise ValueError("Invalid time")]). *)
Definition parse_time_try (time_str : string) : option string :=
  let time_str := upper (strip time_str) in
  let has_pm := contains "PM" time_str in
  let has_am := contains "AM" time_str in
  let time_str := strip (replace "PM" "" (replace "AM" "" time_str)) in
  time_str ←
    (if has_pm && negb (startswith "12" time_str) then
       if contains ":" time_str then
         '(hour, minute) ← unpack2 (split ":" time_str);
         h ← int hour;
         Some (str (h + 12) +:+ ":" +:+ minute)
       else
         h ← int time_str;
         Some (str (h + 12) +:+ ":00")
     else if has_am && startswith "12" time_str then
       if contains ":" time_str then Some (replace_n "12" "00" 1 time_str)
       else Some "00:00"
     else Some time_str);
  let time_str :=
    if contains ":" time_str then time_str else time_str +:+ ":00" in
  '(hour, minute) ← unpack2 (split ":" time_str);
  hour ← int hour;
  minute ← int minute;
  if (hour <? 0) || (hour >? 23) || (minute <? 0) || (minute >? 59) then None
  else Some (fmt02d hour +:+ ":" +:+ fmt02d minute).

(** The default time of the [except] handler. *)
Definition default_time : string := "09:00".

Definition _parse_time (time_str : string) : string :=
  default (default_time) (parse_time_try time_str).

End Parser.

(** ** Naive datetimes *)

Module Clock.
Import PyStr.

(** [day]: the proleptic Gregorian ordinal of the date;
    [usec]: the microsecond of the day, in [0, 86400000000). *)
Record datetime := mk_datetime { day : Z; usec : Z }.

Definition usec_per_day : Z := 86400000000.

(** [date.max.toordinal()], the 31st of December 9999. *)
Definition max_ordinal : Z := 3652059.

Definition wf (t : datetime) : Prop :=
  1 <= day t <= max_ordinal /\ 0 <= usec t < usec_per_day.

(** [a <= b] and [a < b] on naive datetimes *)
Definition leb (a b : datetime) : bool :=
  (day a <? day b) || ((day a =? day b) && (usec a <=? usec b)).

Definition ltb (a b : datetime) : bool :=
  (day a <? day b) || ((day a =? day b) && (usec a <? usec b)).

(** [datetime.combine(d, time(h, m))] *)
Definition combine (d h m : Z) : datetime :=
  {| day := d; usec := (h * 3600 + m * 60) * 1000000 |}.

(** [t + timedelta(days=n)]; [None] is the [OverflowError] raised outside
    the years 1 to 9999. *)
Definition add_days (t : datetime) (n : Z) : option datetime :=
  let d := day t + n in
  if (1 <=? d) && (d <=? max_ordinal) then Some {| day := d; usec := usec t |}
  else None.

(** One or two decimal digits, as the directives [%H] and [%M] read. *)
Definition digits12 (s : string) : option Z :=
  match s with
  | String a EmptyString => digit_of a
  | String a (String b EmptyString) =>
      x ← digit_of a; y ← digit_of b; Some (10 * x + y)
  | _ => None
  end.

(** [datetime.strptime(s, "%H:%M").time()] as hour and minute; [None] is
    the [ValueError] of a string that does not match the format. *)
Definition strptime_HM (s : string) : option (Z * Z) :=
  '(hh, mm) ← unpack2 (split ":" s);
  h ← digits12 hh;
  m ← digits12 mm;
  if (h <=? 23) && (m <=? 59) then Some (h, m) else None.

End Clock.

(** ** User preferences: [utils/user_manager.py] *)

Module UserManager.
Import PyStr.

Unset Elimination Schemes.
(** The values a decoded JSON file holds: [None], booleans, integers,
    strings, lists and objects (floating-point numbers are left out). *)
Inductive pyval :=
| VNone
| VBool (b : bool)
| VInt (n : Z)
| VStr (s : string)
| VList (items : list pyval)
| VDict (items : list (string * pyval)).
Set Elimination Schemes.

(** Truth value of a Python object in a condition. *)
Definition truthy (v : pyval) : bool :=
  match v with
  | VNone => false
  | VBool b => b
  | VInt n => negb (n =? 0)
  | VStr s => negb (String.eqb s "")
  | VList items => match items with [] => false | _ => true end
  | VDict items => match items with [] => false | _ => true end
  end.

Definition DEFAULT_PREFERENCES : gmap string pyval :=
  list_to_map
    [ ("notification_sound", VStr "default");
      ("reminder_frequency", VStr "daily");
      ("voice_enabled", VBool true);
      ("push_notifications", VBool true);
      ("email_notifications", VBool false);
      ("sms_notifications", VBool false);
      ("whatsapp_notifications", VBool false);
      ("email", VStr "");
      ("phone", VStr "");
      ("whatsapp", VStr "") ].

(** Of an ASCII name, as [lower] is. *)
Definition sanitize_filename (name : string) : string :=
  lower (replace "\" "_" (replace "/" "_" (replace " " "_" name))).

(** A file of [data/users/preferences]: the mapping that [dict.update]
    applies (a JSON object), or a file whose reading, decoding or merging
    raises. *)
Inductive pref_file :=
| PrefObject (stored : gmap string pyval)
| PrefUnreadable.

(** [d.get(key, dflt)] *)
Definition dict_get {V} (d : gmap string V) (key : string) (dflt : V) : V :=
  default dflt (d !! key).

(** [d.update(other)]: the keys of [other] win. *)
Definition dict_update {V} (d other : gmap string V) : gmap string V :=
  other ∪ d.

Definition preferences_path (patient_name : string) : string :=
  sanitize_filename patient_name +:+ "_preferences.json".

Definition get_user_preferences (files : gmap string pref_file)
    (patient_name : string) : gmap string pyval :=
  match files !! preferences_path patient_name with
  | Some (PrefObject stored_preferences) =>
      dict_update DEFAULT_PREFERENCES stored_preferences
  | Some PrefUnreadable => DEFAULT_PREFERENCES
  | None => DEFAULT_PREFERENCES
  end.

End UserManager.

(** ** The scheduler: [services/notification_scheduler.py] *)

Module Scheduler.
Import PyStr Parser Clock UserManager.

Record MedicineReminder := {
  mr_patient_name : string;
  mr_medicine_name : string;
  mr_dosage : string;
  mr_timing : string;
  mr_medicine_type : string;
  mr_prescription_date : string;
  mr_file_path : string;
  mr_reminder_id : string
}.

Inductive reminder_status := active | paused | completed.

Record ScheduledReminder := {
  reminder_id : string;
  patient_name : string;
  medicine_name : string;
  dosage : string;
  timing : string;
  medicine_type : string;
  next_reminder : datetime;
  status : reminder_status;
  created_at : datetime;
  prescription_date : string
}.

(** A job of the [schedule] library, as [every().day.at(t).do(f, r).tag(id)]
    builds it: the time of day, the argument of the job function and the
    tag. *)
Record Job := {
  job_at : string;
  job_reminder : MedicineReminder;
  job_tag : string
}.

(** The state the scheduler owns: [schedule.jobs], the in-memory cache and
    its snapshot [data/scheduled_reminders/active_reminders.json]. *)
Record scheduler := {
  jobs : list Job;
  scheduled_reminders_cache : gmap string (list ScheduledReminder);
  active_reminders_file : gmap string (list ScheduledReminder)
}.

(** *** Next reminder time *)

Definition get_next_reminder_time_try (now : datetime)
    (reminder_time : string) : option datetime :=
  let today := day now in
  '(h, m) ← strptime_HM reminder_time;
  let reminder_datetime := combine today h m in
  if leb reminder_datetime now then add_days reminder_datetime 1
  else Some reminder_datetime.

(** The result is the datetime that the code renders with [isoformat]. *)
Definition _get_next_reminder_time (now : datetime) (reminder_time : string)
    : datetime :=
  default now (get_next_reminder_time_try now reminder_time).

(** *** Scheduling and removal *)

Definition _save_scheduled_reminders_to_file (s : scheduler) : scheduler :=
  {| jobs := jobs s;
     scheduled_reminders_cache := scheduled_reminders_cache s;
     active_reminders_file := scheduled_reminders_cache s |}.

Definition job_id_of (reminder : MedicineReminder) : string :=
  replace " " "_"
    (mr_patient_name reminder +:+ "_" +:+ mr_medicine_name reminder
       +:+ "_" +:+ mr_timing reminder).

Definition _schedule_daily_reminder (now : datetime) (s : scheduler)
    (reminder : MedicineReminder) : scheduler :=
  let reminder_time := _parse_time (mr_timing reminder) in
  let job_id := job_id_of reminder in
  let job := {| job_at := reminder_time; job_reminder := reminder;
                job_tag := job_id |} in
  let scheduled_reminder :=
    {| reminder_id := mr_reminder_id reminder;
       patient_name := mr_patient_name reminder;
       medicine_name := mr_medicine_name reminder;
       dosage := mr_dosage reminder;
       timing := mr_timing reminder;
       medicine_type := mr_medicine_type reminder;
       next_reminder := _get_next_reminder_time now reminder_time;
       status := active;
       created_at := now;
       prescription_date := mr_prescription_date reminder |} in
  let cache := scheduled_reminders_cache s in
  let entry := default [] (cache !! mr_patient_name reminder) in
  _save_scheduled_reminders_to_file
    {| jobs := (jobs s ++ [job])%list;
       scheduled_reminders_cache :=
         <[mr_patient_name reminder := (entry ++ [scheduled_reminder])%list]> cache;
       active_reminders_file := active_reminders_file s |}.

Definition hex_digit (n : N) : ascii :=
  ascii_of_N (if (n <? 10)%N then 48 + n else 87 + n).

Fixpoint repr_chars (quote : ascii) (s : string) : string :=
  match s with
  | EmptyString => EmptyString
  | String c r =>
      let n := N_of_ascii c in
      (if Ascii.eqb c quote || Ascii.eqb c "\" then String "\" (String c "")
       else if (n =? 9)%N then "\t"
       else if (n =? 10)%N then "\n"
       else if (n =? 13)%N then "\r"
       else if ((n <? 32) || (n =? 127))%N then
         "\x" +:+ String (hex_digit (n / 16)) (String (hex_digit (n mod 16)) "")
       else String c "") +:+ repr_chars quote r
  end.

Definition dquote : ascii := ascii_of_N 34.

(** [repr(s)] of a [str]: single quotes, unless the text has a single
    quote and no double quote. *)
Definition repr (s : string) : string :=
  let quote : ascii :=
    if contains "'" s && negb (contains (String dquote "") s) then dquote
    else "'"%char in
  String quote (repr_chars quote s) +:+ String quote "".

(** [str(job.tags)], the tags being the set of the one tag given. *)
Definition str_tags (job : Job) : string := "{" +:+ repr (job_tag job) +:+ "}".

Definition job_matches (patient_name : string) (job : Job) : bool :=
  contains (replace " " "_" patient_name) (str_tags job).

Definition remove_patient_reminders (s : scheduler) (patient_name : string)
    : scheduler :=
  (* every job of [jobs_to_cancel] is taken out of [schedule.jobs] *)
  let remaining :=
    List.filter (fun job => negb (job_matches patient_name job)) (jobs s) in
  _save_scheduled_reminders_to_file
    {| jobs := remaining;
       scheduled_reminders_cache := delete patient_name (scheduled_reminders_cache s);
       active_reminders_file := active_reminders_file s |}.

(** *** Delivery history *)

Record history_record := {
  hr_timestamp : datetime;
  hr_reminder_id : string;
  hr_patient_name : string;
  hr_medicine_name : string;
  hr_dosage : string;
  hr_timing : string;
  hr_sent_via : list string;
  hr_status : string
}.

(** [l[-n:]] *)
Definition slice_last {A} (n : nat) (l : list A) : list A :=
  drop (length l - n) l.

Definition history_path (patient_name : string) : string :=
  replace " " "_" patient_name +:+ "_history.json".

Definition make_history_record (now : datetime) (reminder : MedicineReminder)
    (success : bool) (sent_via : list string) : history_record :=
  {| hr_timestamp := now;
     hr_reminder_id := mr_reminder_id reminder;
     hr_patient_name := mr_patient_name reminder;
     hr_medicine_name := mr_medicine_name reminder;
     hr_dosage := mr_dosage reminder;
     hr_timing := mr_timing reminder;
     hr_sent_via := sent_via;
     hr_status := if success then "sent" else "failed" |}.

(** A file of [data/reminder_history]: the list of records that
    [json.load] gives, records as the recorder writes them, or a content
    that [json.load] does not decode to a list. *)
Inductive history_file :=
| HistoryList (records : list history_record)
| HistoryUnreadable.

(** What [json.load] answers; [None] is its exception. *)
Definition load_history (file : history_file) : option (list history_record) :=
  match file with
  | HistoryList records => Some records
  | HistoryUnreadable => None
  end.

(** The body of the [try] block; [None] is an exception. [files] are the
    files of [data/reminder_history] by name, and [can_write name] tells
    whether [open(name, 'w')] succeeds there: it fails, for one, when the
    name holds a slash and the directory it names does not exist. A file
    that does not exist reads as the empty history. *)
Definition store_reminder_history_try (can_write : string -> bool)
    (files : gmap string history_file)
    (now : datetime) (reminder : MedicineReminder) (success : bool)
    (preferences : gmap string pyval) (sent_via : list string)
    : option (gmap string history_file) :=
  let history_file := history_path (mr_patient_name reminder) in
  history ← match files !! history_file with
            | Some file => load_history file
            | None => Some []
            end;
  let history_record := make_history_record now reminder success sent_via in
  let history := (history ++ [history_record])%list in
  let history := slice_last 100 history in
  if can_write history_file
  then Some (<[history_file := HistoryList history]> files)
  else None.

(** The handler logs the error: nothing is written. *)
Definition _store_reminder_history (can_write : string -> bool)
    (files : gmap string history_file)
    (now : datetime) (reminder : MedicineReminder) (success : bool)
    (preferences : gmap string pyval) (sent_via : list string)
    : gmap string history_file :=
  default files
    (store_reminder_history_try can_write files now reminder success
       preferences sent_via).

(** *** Dispatch *)

Inductive channel := Push | Email | Sms | Whatsapp.

Definition channel_name (ch : channel) : string :=
  match ch with
  | Push => "push"
  | Email => "email"
  | Sms => "sms"
  | Whatsapp => "whatsapp"
  end.

(** The collaborator [NotificationSender]: each method answers whether the
    delivery succeeded (its own exceptions are caught inside and answered
    with [False]). *)
Record NotificationSender := {
  send_push_notification : string -> string -> string -> bool;
  send_email_notification : pyval -> string -> string -> bool;
  send_sms_notification : pyval -> string -> bool;
  send_whatsapp_notification : pyval -> string -> bool
}.

(** One call made to the sender: the channel and the address it was given
    (for push, the patient's name). *)
Record call := { call_channel : channel; call_address : pyval }.

Record dispatch_state := {
  calls : list call;
  sent_successfully : bool;
  sent_via : list string
}.

Definition dispatch_init : dispatch_state :=
  {| calls := []; sent_successfully := false; sent_via := [] |}.

(** A delivery was attempted on [ch] with answer [ok]. *)
Definition attempted (ch : channel) (address : pyval) (ok : bool)
    (st : dispatch_state) : dispatch_state :=
  {| calls := (calls st ++ [{| call_channel := ch; call_address := address |}])%list;
     sent_successfully := if ok then true else sent_successfully st;
     sent_via := if ok then (sent_via st ++ [channel_name ch])%list else sent_via st |}.

Definition pill : string := "💊".

Definition _create_reminder_message (reminder : MedicineReminder) : string :=
  "Hi " +:+ mr_patient_name reminder +:+ "! It's time to take your "
  +:+ mr_medicine_name reminder +:+ ". Dosage: " +:+ mr_dosage reminder +:+ ". "
  +:+ "Remember to take your medication on time for better health! " +:+ pill.

Definition push_title : string := pill +:+ " Medicine Reminder".

(** The four conditional sends of [_send_medicine_reminder], in order. *)
Definition send_all (sender : NotificationSender) (preferences : gmap string pyval)
    (reminder : MedicineReminder) : dispatch_state :=
  let message := _create_reminder_message reminder in
  let st := dispatch_init in
  let st :=
    if truthy (dict_get preferences "push_notifications" (VBool true)) then
      attempted Push (VStr (mr_patient_name reminder))
        (send_push_notification sender push_title message (mr_patient_name reminder)) st
    else st in
  let st :=
    if truthy (dict_get preferences "email_notifications" (VBool false)) then
      let email := dict_get preferences "email" (VStr "") in
      if truthy email then
        attempted Email email
          (send_email_notification sender email "Medicine Reminder" message) st
      else st
    else st in
  let st :=
    if truthy (dict_get preferences "sms_notifications" (VBool false)) then
      let phone := dict_get preferences "phone" (VStr "") in
      if truthy phone then
        attempted Sms phone (send_sms_notification sender phone message) st
      else st
    else st in
  let st :=
    if truthy (dict_get preferences "whatsapp_notifications" (VBool false)) then
      let whatsapp := dict_get preferences "whatsapp" (VStr "") in
      if truthy whatsapp then
        attempted Whatsapp whatsapp
          (send_whatsapp_notification sender whatsapp message) st
      else st
    else st in
  st.

(** Everything a firing reads or writes; [history_writable] tells at
    which names of [data/reminder_history] a file can be opened for
    writing. *)
Record world := {
  sched : scheduler;
  preference_files : gmap string pref_file;
  history_files : gmap string history_file;
  history_writable : string -> bool
}.

(** [_send_medicine_reminder]: the history is written on the successful
    branch only; the other branch logs a warning. *)
Definition _send_medicine_reminder (sender : NotificationSender) (now : datetime)
    (w : world) (reminder : MedicineReminder) : world * dispatch_state :=
  let preferences := get_user_preferences (preference_files w) (mr_patient_name reminder) in
  let st := send_all sender preferences reminder in
  if sent_successfully st then
    ({| sched := sched w;
        preference_files := preference_files w;
        history_files :=
          _store_reminder_history (history_writable w) (history_files w) now
            reminder (sent_successfully st) preferences (sent_via st);
        history_writable := history_writable w |}, st)
  else (w, st).

(** A firing: the job function [_schedule_reminder_job] run by the library,
    with the event loop available. *)
Definition fire (sender : NotificationSender) (now : datetime) (w : world)
    (job : Job) : world :=
  fst (_send_medicine_reminder sender now w (job_reminder job)).

End Scheduler.

(** ** The properties, in the words of the specification *)

Module Spec.
Import PyStr Parser Clock UserManager Scheduler.

(** The integers [lo], [lo + 1], ..., [lo + n - 1]. *)
Definition zrange (lo : Z) (n : nat) : list Z :=
  map (fun i => lo + Z.of_nat i) (seq 0 n).

(** A frequency code of three digits, as "1-0-1". *)
Definition frequency_code (a b c : Z) : string :=
  str a +:+ "-" +:+ str b +:+ "-" +:+ str c.

Inductive meridiem := AM | PM.

(** The suffix in any letter case. *)
Definition suffix_text (mer : meridiem) (low1 low2 : bool) : string :=
  String (match mer with
          | AM => if low1 then "a" else "A"
          | PM => if low1 then "p" else "P"
          end)%char
    (String (if low2 then "m" else "M")%char EmptyString).

(** A twelve-hour clock string: the hour (zero padded or not), an optional
    colon and two-digit minute, an optional blank, the suffix. *)
Definition clock12_text (padded : bool) (h : Z) (m : option Z) (blank : bool)
    (mer : meridiem) (low1 low2 : bool) : string :=
  (if padded then fmt02d h else str h)
  +:+ match m with Some m => ":" +:+ fmt02d m | None => "" end
  +:+ (if blank then " " else "")
  +:+ suffix_text mer low1 low2.

(** The hour of the day a twelve-hour clock reading means. *)
Definition hour24 (h : Z) (mer : meridiem) : Z :=
  match mer with
  | AM => if h =? 12 then 0 else h
  | PM => if h =? 12 then 12 else h + 12
  end.

(** [HH:MM] *)
Definition time_text (h m : Z) : string := fmt02d h +:+ ":" +:+ fmt02d m.

Definition minute_ok (m : option Z) : Prop :=
  match m with Some m => 0 <= m <= 59 | None => True end.

Definition bools : list bool := [false; true].

Definition minutes : list (option Z) := None :: map Some (zrange 0 60).

Definition clock12_check (h : Z) (m : option Z) : bool :=
  forallb (fun padded =>
  forallb (fun blank =>
  forallb (fun mer =>
  forallb (fun low1 =>
  forallb (fun low2 =>
    String.eqb (_parse_time (clock12_text padded h m blank mer low1 low2))
               (time_text (hour24 h mer) (default 0 m)))
  bools) bools) [AM; PM]) bools) bools.

Definition frequency_check (a b c : Z) : bool :=
  String.eqb (_parse_time (frequency_code a b c)) default_time.

Fixpoint count_char (x : ascii) (s : string) : nat :=
  match s with
  | EmptyString => O
  | String c r => (if Ascii.eqb c x then 1 else 0) + count_char x r
  end.

(** Today at [h:m] when that is still to come, else tomorrow at [h:m]. *)
Definition expected_next_fire (now : datetime) (h m : Z) : datetime :=
  if ltb now (combine (day now) h m) then combine (day now) h m
  else combine (day now + 1) h m.

Definition hours_minutes_check (h m : Z) : bool :=
  match strptime_HM (time_text h m) with
  | Some (h', m') => (h' =? h) && (m' =? m)
  | None => false
  end.

(** One call of the history recorder. *)
Record history_event := {
  ev_now : datetime;
  ev_reminder : MedicineReminder;
  ev_success : bool;
  ev_preferences : gmap string pyval;
  ev_sent_via : list string
}.

Definition store_event (can_write : string -> bool)
    (files : gmap string history_file) (ev : history_event)
    : gmap string history_file :=
  _store_reminder_history can_write files (ev_now ev) (ev_reminder ev)
    (ev_success ev) (ev_preferences ev) (ev_sent_via ev).

(** A sequence of record operations, in order. *)
Definition store_all (can_write : string -> bool)
    (files : gmap string history_file) (evs : list history_event)
    : gmap string history_file :=
  foldl (store_event can_write) files evs.

Definition event_path (ev : history_event) : string :=
  history_path (mr_patient_name (ev_reminder ev)).

Definition event_record (ev : history_event) : history_record :=
  make_history_record (ev_now ev) (ev_reminder ev) (ev_success ev) (ev_sent_via ev).

(** The records appended to the file [path], in append order. *)
Fixpoint records_for (path : string) (evs : list history_event)
    : list history_record :=
  match evs with
  | [] => []
  | ev :: evs' =>
      if String.eqb (event_path ev) path
      then event_record ev :: records_for path evs'
      else records_for path evs'
  end.

(** The records of the file [path]; none when the file does not exist or
    does not decode. *)
Definition history_of (files : gmap string history_file)
    (path : string) : list history_record :=
  default [] (files !! path ≫= load_history).

(** The file [path], if it exists, decodes. *)
Definition decodes (files : gmap string history_file) (path : string) : Prop :=
  files !! path <> Some HistoryUnreadable.

(** A directory without sub-directories, on a file system that limits a
    file name to 255 bytes: a file can be opened for writing unless its
    name holds a slash or a NUL, or is longer. *)
Definition flat_directory (name : string) : bool :=
  negb (contains "/" name)
  && negb (contains (String Ascii.zero EmptyString) name)
  && (String.length name <=? 255)%nat.

Definition all_channels : list channel := [Push; Email; Sms; Whatsapp].

(** The preference that switches a channel on, and its value when absent. *)
Definition channel_flag (ch : channel) : string * pyval :=
  match ch with
  | Push => ("push_notifications", VBool true)
  | Email => ("email_notifications", VBool false)
  | Sms => ("sms_notifications", VBool false)
  | Whatsapp => ("whatsapp_notifications", VBool false)
  end.

Definition channel_enabled (preferences : gmap string pyval) (ch : channel) : bool :=
  truthy (dict_get preferences (fst (channel_flag ch)) (snd (channel_flag ch))).

(** The contact field a channel requires; push requires none. *)
Definition channel_contact (preferences : gmap string pyval) (ch : channel)
    : option pyval :=
  match ch with
  | Push => None
  | Email => Some (dict_get preferences "email" (VStr ""))
  | Sms => Some (dict_get preferences "phone" (VStr ""))
  | Whatsapp => Some (dict_get preferences "whatsapp" (VStr ""))
  end.

Definition contact_present (preferences : gmap string pyval) (ch : channel) : bool :=
  match channel_contact preferences ch with
  | None => true
  | Some address => truthy address
  end.

(** Enabled, and the required contact field is not empty. *)
Definition channel_ready (preferences : gmap string pyval) (ch : channel) : bool :=
  channel_enabled preferences ch && contact_present preferences ch.

(** The answer of the delivery call of a channel. *)
Definition delivery (sender : NotificationSender) (preferences : gmap string pyval)
    (reminder : MedicineReminder) (ch : channel) : bool :=
  let message := _create_reminder_message reminder in
  match ch with
  | Push => send_push_notification sender push_title message (mr_patient_name reminder)
  | Email => send_email_notification sender
               (dict_get preferences "email" (VStr "")) "Medicine Reminder" message
  | Sms => send_sms_notification sender (dict_get preferences "phone" (VStr "")) message
  | Whatsapp => send_whatsapp_notification sender
                  (dict_get preferences "whatsapp" (VStr "")) message
  end.

Definition keep {A} (f : A -> bool) (l : list A) : list A := List.filter f l.


(** A sender whose every delivery fails, and one whose every delivery
    succeeds. *)
Definition sender_const (answer : bool) : NotificationSender :=
  {| send_push_notification := fun _ _ _ => answer;
     send_email_notification := fun _ _ _ => answer;
     send_sms_notification := fun _ _ => answer;
     send_whatsapp_notification := fun _ _ => answer |}.

Definition empty_scheduler : scheduler :=
  {| jobs := []; scheduled_reminders_cache := ∅; active_reminders_file := ∅ |}.

Definition reminder_of (patient medicine timing : string) : MedicineReminder :=
  {| mr_patient_name := patient;
     mr_medicine_name := medicine;
     mr_dosage := "1 tablet";
     mr_timing := timing;
     mr_medicine_type := "Tablet";
     mr_prescription_date := "2025-01-01";
     mr_file_path := "";
     mr_reminder_id := "r-1" |}.

(** The first of January 2025, at 08:05. *)
Definition morning : datetime :=
  {| day := 739252; usec := (8 * 3600 + 5 * 60) * 1000000 |}.

(** No preference is stored and no history yet; [data/reminder_history]
    has no sub-directory. *)
Definition world_of (s : scheduler) : world :=
  {| sched := s; preference_files := ∅; history_files := ∅;
     history_writable := flat_directory |}.

(** A record operation for Alice, after a delivery by push. *)
Definition sample_event : history_event :=
  {| ev_now := morning;
     ev_reminder := reminder_of "Alice" "Amoxicillin" "8:00 AM";
     ev_success := true;
     ev_preferences := DEFAULT_PREFERENCES;
     ev_sent_via := ["push"] |}.

Definition next_reminders (s : scheduler) (patient : string) : list datetime :=
  map next_reminder (default [] (scheduled_reminders_cache s !! patient)).

End Spec.

(** ** More of the scheduler: prescriptions, lookups, the service *)

Module SchedulerOps.
Import PyStr Parser Clock UserManager Scheduler.

(** A prescription as the extraction prompt shapes it. A key that is
    missing is [None]; the code reads it with [dict.get] and a default. *)
Record Medicine := {
  med_Medicine : option string;
  med_Dosage : option string;
  med_Timings : option (list string);
  med_Type : option string
}.

Record Prescription := {
  rx_Patient_Name : option string;
  rx_Medicines : option (list Medicine);
  rx_Date : option string;
  rx_file_path : option string
}.

Definition rx_patient (prescription_data : Prescription) : string :=
  default "Unknown Patient" (rx_Patient_Name prescription_data).

(** The state of the nested loops: the scheduler and the number of
    identifiers drawn from [uuid.uuid4]; [uuid k] is the k-th one. *)
Definition schedule_timing (now : datetime) (uuid : nat -> string)
    (prescription_data : Prescription) (medicine : Medicine)
    (st : scheduler * nat) (timing : string) : scheduler * nat :=
  let reminder :=
    {| mr_patient_name := rx_patient prescription_data;
       mr_medicine_name := default "Unknown Medicine" (med_Medicine medicine);
       mr_dosage := default "Unknown Dosage" (med_Dosage medicine);
       mr_timing := timing;
       mr_medicine_type := default "Unknown Type" (med_Type medicine);
       mr_prescription_date := default "Unknown Date" (rx_Date prescription_data);
       mr_file_path := default "" (rx_file_path prescription_data);
       mr_reminder_id := uuid (snd st) |} in
  (_schedule_daily_reminder now (fst st) reminder, S (snd st)).

Definition schedule_medicine (now : datetime) (uuid : nat -> string)
    (prescription_data : Prescription) (st : scheduler * nat)
    (medicine : Medicine) : scheduler * nat :=
  foldl (schedule_timing now uuid prescription_data medicine) st
    (default [] (med_Timings medicine)).

Definition schedule_prescription_reminders (now : datetime)
    (uuid : nat -> string) (st : scheduler * nat)
    (prescription_data : Prescription) : scheduler * nat :=
  foldl (schedule_medicine now uuid prescription_data) st
    (default [] (rx_Medicines prescription_data)).

(** [prescriptions] is what [get_all_prescriptions] returns. *)
Definition load_and_schedule_all_prescriptions (now : datetime)
    (uuid : nat -> string) (prescriptions : list Prescription)
    (st : scheduler * nat) : scheduler * nat :=
  foldl (schedule_prescription_reminders now uuid) st prescriptions.

Definition add_new_prescription_reminders (now : datetime)
    (uuid : nat -> string) (st : scheduler * nat)
    (prescription_data : Prescription) : scheduler * nat :=
  schedule_prescription_reminders now uuid st prescription_data.

(** The reminders of a patient as the interface shows them: the cached
    list, and only for a patient the cache does not know, the list of the
    snapshot file. *)
Definition get_patient_scheduled_reminders (s : scheduler)
    (patient_name : string) : list ScheduledReminder :=
  match scheduled_reminders_cache s !! patient_name with
  | Some reminders => reminders
  | None => default [] (active_reminders_file s !! patient_name)
  end.

Definition get_all_scheduled_reminders (s : scheduler)
    : gmap string (list ScheduledReminder) :=
  map_imap (fun patient_name _ => Some (get_patient_scheduled_reminders s patient_name))
    (scheduled_reminders_cache s).

(** The legacy listing of jobs; an absent or empty name lists them all.
    The result holds the jobs reported. *)
Definition get_scheduled_reminders (s : scheduler)
    (patient_name : option string) : list Job :=
  List.filter
    (fun job =>
       match patient_name with
       | Some name =>
           if String.eqb name "" then true else job_matches name job
       | None => true
       end)
    (jobs s).

(** [timedelta(days=n)] is limited to 999999999 days either way. *)
Definition max_timedelta_days : Z := 999999999.

(** [t - timedelta(days=n)]; [None] is [OverflowError]. *)
Definition sub_days (t : datetime) (n : Z) : option datetime :=
  if (Z.abs n <=? max_timedelta_days) then add_days t (- n) else None.

(** [None] is an exception, which the handler answers with []. *)
Definition get_reminder_history_try (files : gmap string history_file)
    (now : datetime) (patient_name : string) (days : Z)
    : option (list history_record) :=
  match files !! history_path patient_name with
  | None => Some []
  | Some file =>
      history ← load_history file;
      cutoff_date ← sub_days now days;
      Some (List.filter (fun record => ltb cutoff_date (hr_timestamp record))
              history)
  end.

Definition get_reminder_history (files : gmap string history_file)
    (now : datetime) (patient_name : string) (days : Z) : list history_record :=
  default [] (get_reminder_history_try files now patient_name days).

(** The scheduler object with its running flag and the identifiers drawn
    so far; the threads and the event loop are not part of the state. *)
Record service := {
  is_running : bool;
  core : scheduler;
  uuids_drawn : nat
}.

Definition start_scheduler (now : datetime) (uuid : nat -> string)
    (prescriptions : list Prescription) (svc : service) : service :=
  if is_running svc then svc
  else
    let st := load_and_schedule_all_prescriptions now uuid prescriptions
                (core svc, uuids_drawn svc) in
    {| is_running := true; core := fst st; uuids_drawn := snd st |}.

(** [schedule.clear()] empties the list of jobs. *)
Definition stop_scheduler (svc : service) : service :=
  {| is_running := false;
     core := {| jobs := [];
                scheduled_reminders_cache := scheduled_reminders_cache (core svc);
                active_reminders_file := active_reminders_file (core svc) |};
     uuids_drawn := uuids_drawn svc |}.

(** A new [MedicationScheduler] in a new process: no job, an empty
    cache, and on disk the snapshot that an earlier run left ([∅] when
    there is none, or when it does not decode: such a file lists nothing
    either). *)
Definition new_service (snapshot : gmap string (list ScheduledReminder))
    : service :=
  {| is_running := false;
     core := {| jobs := []; scheduled_reminders_cache := ∅;
                active_reminders_file := snapshot |};
     uuids_drawn := O |}.

End SchedulerOps.

(** ** More of the user manager: profiles, device tokens, validation *)

Module UserStore.
Import PyStr UserManager Scheduler.

Definition DEFAULT_PROFILE : gmap string pyval :=
  list_to_map
    [ ("name", VStr "");
      ("age", VNone);
      ("medical_conditions", VList []);
      ("allergies", VList []);
      ("emergency_contact", VStr "") ].

(** [stamp] is the text of [datetime.now().isoformat()]. With the files
    written as asked, the functions that answer [True] or [False] answer
    [True]; where another answer is possible it is part of the result. *)
Definition update_user_preferences (files : gmap string pref_file)
    (stamp : string) (patient_name : string) (preferences : gmap string pyval)
    : gmap string pref_file :=
  let existing_preferences := get_user_preferences files patient_name in
  let existing_preferences := dict_update existing_preferences preferences in
  let existing_preferences :=
    <["updated_at" := VStr stamp]> existing_preferences in
  <[preferences_path patient_name := PrefObject existing_preferences]> files.

Definition profile_path (patient_name : string) : string :=
  sanitize_filename patient_name +:+ "_profile.json".

Definition get_user_profile (files : gmap string pref_file)
    (patient_name : string) : gmap string pyval :=
  match files !! profile_path patient_name with
  | Some (PrefObject stored_profile) =>
      <["name" := VStr patient_name]> (dict_update DEFAULT_PROFILE stored_profile)
  | Some PrefUnreadable => <["name" := VStr patient_name]> DEFAULT_PROFILE
  | None => <["name" := VStr patient_name]> DEFAULT_PROFILE
  end.


(** A file of [data/users/device_tokens]: a list of tokens, or a file
    whose reading or updating raises. *)
Inductive token_file :=
| TokenList (tokens : list string)
| TokenUnreadable.

Definition tokens_path (patient_name : string) : string :=
  sanitize_filename patient_name +:+ "_tokens.json".

(** [x in l] *)
Definition list_mem (x : string) (l : list string) : bool :=
  existsb (String.eqb x) l.




Definition get_user_device_tokens (files : gmap string token_file)
    (patient_name : string) : list string :=
  match files !! tokens_path patient_name with
  | Some (TokenList tokens) => tokens
  | Some TokenUnreadable => []
  | None => []
  end.

(** What [backup_user_data] builds and [restore_user_data] reads; a key
    that is missing is [None]. *)
Record backup := {
  b_patient_name : option string;
  b_backup_timestamp : option string;
  b_preferences : option (gmap string pyval);
  b_profile : option (gmap string pyval);
  b_device_tokens : option (list string)
}.

(** The directories under [data/] that hold a user's files. The content
    of the notification files is not read here. *)
Record store (N : Type) := {
  preferences_dir : gmap string pref_file;
  profiles_dir : gmap string pref_file;
  device_tokens_dir : gmap string token_file;
  reminder_history_dir : gmap string history_file;
  notifications_dir : gmap string N;
  backups_dir : gmap string backup
}.
Arguments preferences_dir {N}.
Arguments profiles_dir {N}.
Arguments device_tokens_dir {N}.
Arguments reminder_history_dir {N}.
Arguments notifications_dir {N}.
Arguments backups_dir {N}.

Definition delete_user_data {N} (st : store N) (patient_name : string) : store N :=
  let filename := sanitize_filename patient_name in
  {| preferences_dir := delete (filename +:+ "_preferences.json") (preferences_dir st);
     profiles_dir := delete (filename +:+ "_profile.json") (profiles_dir st);
     device_tokens_dir := delete (filename +:+ "_tokens.json") (device_tokens_dir st);
     reminder_history_dir :=
       delete (filename +:+ "_history.json") (reminder_history_dir st);
     notifications_dir :=
       delete (filename +:+ "_notifications.json") (notifications_dir st);
     backups_dir := backups_dir st |}.



(** *** Validation *)

Definition is_digit (c : ascii) : bool :=
  let n := N_of_ascii c in ((48 <=? n) && (n <=? 57))%N.

Definition is_alpha (c : ascii) : bool :=
  let n := N_of_ascii c in
  ((65 <=? n) && (n <=? 90) || (97 <=? n) && (n <=? 122))%N.

Fixpoint all_chars (f : ascii -> bool) (s : string) : bool :=
  match s with
  | EmptyString => true
  | String c r => f c && all_chars f r
  end.

Fixpoint filter_chars (f : ascii -> bool) (s : string) : string :=
  match s with
  | EmptyString => EmptyString
  | String c r => if f c then String c (filter_chars f r) else filter_chars f r
  end.

Definition one_of (chars : string) (c : ascii) : bool :=
  contains (String c EmptyString) chars.

(** [[a-zA-Z0-9._%+-]] and [[a-zA-Z0-9.-]] *)
Definition local_char (c : ascii) : bool :=
  is_alpha c || is_digit c || one_of "._%+-" c.

Definition domain_char (c : ascii) : bool :=
  is_alpha c || is_digit c || one_of ".-" c.

(** The text before the first [sep] and the text after it. *)
Fixpoint split_first (sep : ascii) (s : string) : option (string * string) :=
  match s with
  | EmptyString => None
  | String c r =>
      if Ascii.eqb c sep then Some (EmptyString, r)
      else match split_first sep r with
           | Some (a, b) => Some (String c a, b)
           | None => None
           end
  end.

(** The text before the last [sep] and the text after it. *)
Fixpoint split_last (sep : ascii) (s : string) : option (string * string) :=
  match s with
  | EmptyString => None
  | String c r =>
      match split_last sep r with
      | Some (a, b) => Some (String c a, b)
      | None => if Ascii.eqb c sep then Some (EmptyString, r) else None
      end
  end.

(** A whole text of the form local [@] domain [.] letters, the three parts
    drawn from their classes, the first two not empty and the last of two
    letters at least. No class holds [@] and the letters hold no dot, so
    the [@] is the first one and the dot the last one. *)
Definition email_shape (s : string) : bool :=
  match split_first "@" s with
  | Some (local_part, rest) =>
      match split_last "." rest with
      | Some (domain, letters) =>
          negb (String.eqb local_part "") && all_chars local_char local_part
          && negb (String.eqb domain "") && all_chars domain_char domain
          && (2 <=? String.length letters)%nat && all_chars is_alpha letters
      | None => false
      end
  | None => false
  end.

Definition newline : ascii := ascii_of_N 10.

(** [s] without a final line feed, when it has one. *)
Fixpoint chomp (s : string) : option string :=
  match s with
  | EmptyString => None
  | String c EmptyString => if Ascii.eqb c newline then Some EmptyString else None
  | String c r => String c <$> chomp r
  end.

(** [re.match(email_pattern, s)] is a match; the final [$] also accepts a
    line feed that ends the text. *)
Definition email_pattern_match (s : string) : bool :=
  email_shape s || match chomp s with Some s' => email_shape s' | None => false end.

(** [re.sub(r'[^\d+]', '', s)] *)
Definition phone_digits (s : string) : string :=
  filter_chars (fun c => is_digit c || Ascii.eqb c "+") s.

(** [s.isdigit()] *)
Definition isdigit (s : string) : bool :=
  negb (String.eqb s "") && all_chars is_digit s.

Definition bool_keys : list string :=
  ["voice_enabled"; "push_notifications"; "email_notifications";
   "sms_notifications"; "whatsapp_notifications"].

Definition string_keys : list string :=
  ["notification_sound"; "reminder_frequency"; "email"; "phone"; "whatsapp"].

Definition validate_bool (preferences validated : gmap string pyval)
    (key : string) : gmap string pyval :=
  match preferences !! key with
  | Some v => <[key := VBool (truthy v)]> validated
  | None => validated
  end.

Definition validate_string (preferences validated : gmap string pyval)
    (key : string) : gmap string pyval :=
  match preferences !! key with
  | Some (VStr s) => <[key := VStr (strip s)]> validated
  | _ => validated
  end.

(** The check of the email. The second component says whether the
    statement [import re], which stands inside this branch, was run: [re]
    is a local name of the function and is bound by that statement only. *)
Definition validate_email (validated : gmap string pyval)
    : option (gmap string pyval * bool) :=
  email ← validated !! "email";
  if truthy email then
    match email with
    | VStr e =>
        if email_pattern_match e then Some (validated, true)
        else Some (<["email" := VStr ""]> validated, true)
    | _ => None
    end
  else Some (validated, false).

(** The check of one phone field; [None] is the [UnboundLocalError] of
    [re] when the import was not run, or a value that is not a text. *)
Definition validate_phone (re_bound : bool)
    (validated : option (gmap string pyval)) (phone_field : string)
    : option (gmap string pyval) :=
  validated ← validated;
  value ← validated !! phone_field;
  if truthy value then
    if re_bound then
      match value with
      | VStr s =>
          let phone := phone_digits s in
          if negb (String.eqb phone "") && (startswith "+" phone || isdigit phone)
          then Some (<[phone_field := VStr phone]> validated)
          else Some (<[phone_field := VStr ""]> validated)
      | _ => None
      end
    else None
  else Some validated.

Definition validate_user_preferences_try (preferences : gmap string pyval)
    : option (gmap string pyval) :=
  let validated := DEFAULT_PREFERENCES in
  let validated := foldl (validate_bool preferences) validated bool_keys in
  let validated := foldl (validate_string preferences) validated string_keys in
  '(validated, re_bound) ← validate_email validated;
  foldl (validate_phone re_bound) (Some validated) ["phone"; "whatsapp"].

Definition validate_user_preferences (preferences : gmap string pyval)
    : gmap string pyval :=
  default DEFAULT_PREFERENCES (validate_user_preferences_try preferences).

End UserStore.

(** ** The push channel of the sender: [services/notification_sender.py] *)

Module Sender.
Import PyStr UserManager Scheduler UserStore.

(** [send_batch] stands for [messaging.send_all]: the number of messages
    delivered, or [None] when the call raises. *)
Definition send_push_notification_of (firebase_app : bool)
    (token_files : gmap string token_file)
    (send_batch : list string -> string -> string -> option nat)
    (title body patient_name : string) : bool :=
  if negb firebase_app then false
  else
    let device_tokens := get_user_device_tokens token_files patient_name in
    match device_tokens with
    | [] => false
    | _ =>
        match send_batch device_tokens title body with
        | Some success_count => (0 <? success_count)%nat
        | None => false
        end
    end.

(** A sender whose push channel is the code above; the other channels
    are those of [others]. *)
Definition sender_with_push (firebase_app : bool)
    (token_files : gmap string token_file)
    (send_batch : list string -> string -> string -> option nat)
    (others : NotificationSender) : NotificationSender :=
  {| send_push_notification :=
       send_push_notification_of firebase_app token_files send_batch;
     send_email_notification := send_email_notification others;
     send_sms_notification := send_sms_notification others;
     send_whatsapp_notification := send_whatsapp_notification others |}.

End Sender.

(** ** Notions used to state the further properties *)

Module SpecMore.
Import PyStr Parser Clock UserManager Scheduler SchedulerOps UserStore Sender Spec.

Definition time_check (h m : Z) : bool :=
  String.eqb (_parse_time (time_text h m)) (time_text h m)
  && String.eqb (_parse_time (str h +:+ ":" +:+ fmt02d m)) (time_text h m).

Definition hour_check (h : Z) : bool :=
  String.eqb (_parse_time (str h)) (time_text h 0).

(** The job and the cached reminder that scheduling builds. *)
Definition job_of (reminder : MedicineReminder) : Job :=
  {| job_at := _parse_time (mr_timing reminder);
     job_reminder := reminder;
     job_tag := job_id_of reminder |}.

Definition scheduled_of (now : datetime) (reminder : MedicineReminder)
    : ScheduledReminder :=
  {| reminder_id := mr_reminder_id reminder;
     patient_name := mr_patient_name reminder;
     medicine_name := mr_medicine_name reminder;
     dosage := mr_dosage reminder;
     timing := mr_timing reminder;
     medicine_type := mr_medicine_type reminder;
     next_reminder := _get_next_reminder_time now (_parse_time (mr_timing reminder));
     status := active;
     created_at := now;
     prescription_date := mr_prescription_date reminder |}.

(** The (medicine, timing) pairs of a prescription, in its order. *)
Definition timing_pairs (rx : Prescription) : list (Medicine * string) :=
  flat_map (fun medicine => map (pair medicine) (default [] (med_Timings medicine)))
    (default [] (rx_Medicines rx)).

Definition reminder_for (rx : Prescription) (id : string)
    (entry : Medicine * string) : MedicineReminder :=
  {| mr_patient_name := rx_patient rx;
     mr_medicine_name := default "Unknown Medicine" (med_Medicine (fst entry));
     mr_dosage := default "Unknown Dosage" (med_Dosage (fst entry));
     mr_timing := snd entry;
     mr_medicine_type := default "Unknown Type" (med_Type (fst entry));
     mr_prescription_date := default "Unknown Date" (rx_Date rx);
     mr_file_path := default "" (rx_file_path rx);
     mr_reminder_id := id |}.

(** The reminders of a list of pairs, the identifiers drawn from the
    [k]-th on. *)
Fixpoint reminders_from (rx : Prescription) (uuid : nat -> string) (k : nat)
    (pairs : list (Medicine * string)) : list MedicineReminder :=
  match pairs with
  | [] => []
  | entry :: pairs' => reminder_for rx (uuid k) entry :: reminders_from rx uuid (S k) pairs'
  end.

Definition prescription_reminders (uuid : nat -> string) (k : nat)
    (rx : Prescription) : list MedicineReminder :=
  reminders_from rx uuid k (timing_pairs rx).

(** The reminders of a list of prescriptions, loaded in order. *)
Fixpoint all_reminders (uuid : nat -> string) (k : nat)
    (prescriptions : list Prescription) : list MedicineReminder :=
  match prescriptions with
  | [] => []
  | rx :: rest =>
      (prescription_reminders uuid k rx
         ++ all_reminders uuid (k + length (timing_pairs rx)) rest)%list
  end.

(** The number of timings of the prescriptions, and of those of one
    patient. *)
Definition timings_total (prescriptions : list Prescription) : nat :=
  list_sum (map (fun rx => length (timing_pairs rx)) prescriptions).

Definition timings_of (patient : string) (prescriptions : list Prescription) : nat :=
  list_sum (map (fun rx => if String.eqb (rx_patient rx) patient
                           then length (timing_pairs rx) else O) prescriptions).

Definition cached (s : scheduler) (patient : string) : list ScheduledReminder :=
  default [] (scheduled_reminders_cache s !! patient).

(** A time of day in the form [HH:MM]. *)
Definition valid_time (t : string) : Prop :=
  exists h m, 0 <= h <= 23 /\ 0 <= m <= 59 /\ t = time_text h m.

(** The job is as scheduling builds it from its reminder. *)
Definition well_formed_job (job : Job) : Prop :=
  job = job_of (job_reminder job).

(** The states that the operations of the scheduler reach from a new
    one; [uuid] is the sequence of identifiers that [uuid.uuid4] gives
    and [snapshot] the file that the earlier run left. *)
Inductive reachable (uuid : nat -> string)
    (snapshot : gmap string (list ScheduledReminder)) : service -> Prop :=
| reach_new : reachable uuid snapshot (new_service snapshot)
| reach_start now prescriptions svc :
    reachable uuid snapshot svc ->
    reachable uuid snapshot (start_scheduler now uuid prescriptions svc)
| reach_stop svc :
    reachable uuid snapshot svc -> reachable uuid snapshot (stop_scheduler svc)
| reach_add now rx svc :
    reachable uuid snapshot svc ->
    reachable uuid snapshot
      {| is_running := is_running svc;
         core := fst (add_new_prescription_reminders now uuid
                        (core svc, uuids_drawn svc) rx);
         uuids_drawn := snd (add_new_prescription_reminders now uuid
                               (core svc, uuids_drawn svc) rx) |}
| reach_remove patient svc :
    reachable uuid snapshot svc ->
    reachable uuid snapshot
      {| is_running := is_running svc;
         core := remove_patient_reminders (core svc) patient;
         uuids_drawn := uuids_drawn svc |}.

(** Every job is as scheduling builds it and fires at a time of day; a
    cached reminder is active and filed under its patient's name. *)
Definition consistent (s : scheduler) : Prop :=
  Forall (fun job => well_formed_job job /\ valid_time (job_at job)) (jobs s) /\
  forall patient reminders,
    scheduled_reminders_cache s !! patient = Some reminders ->
    Forall (fun r => patient_name r = patient /\ status r = active) reminders.

(** The snapshot file is the cache, once the scheduler has written it. *)
Definition written (s : scheduler) : Prop :=
  active_reminders_file s = scheduled_reminders_cache s.

(** Nothing was scheduled or removed yet: no job, an empty cache, and on
    disk the file that the earlier run left. *)
Definition untouched (snapshot : gmap string (list ScheduledReminder))
    (s : scheduler) : Prop :=
  jobs s = [] /\ scheduled_reminders_cache s = ∅ /\
  active_reminders_file s = snapshot.

(** Printable, and neither a quote nor a backslash: a character that
    [repr] leaves as it is. *)
Definition plain_char (c : ascii) : bool :=
  let n := N_of_ascii c in
  ((32 <=? n) && (n <=? 126) && negb (n =? 39) && negb (n =? 34) && negb (n =? 92))%N.

Definition plain (s : string) : bool := all_chars plain_char s.

(** Replacing one character by another, character by character. *)
Definition replace_char (a b c : ascii) : ascii :=
  if Ascii.eqb c a then b else c.

(** What [sanitize_filename] makes of one character. *)
Definition sanitize_char (c : ascii) : ascii :=
  lower_char (replace_char "\" "_" (replace_char "/" "_" (replace_char " " "_" c))).

(** A character that [sanitize_filename] leaves as it is. *)
Definition sanitized_char (c : ascii) : bool :=
  let n := N_of_ascii c in
  negb (((65 <=? n) && (n <=? 90)) || (n =? 47) || (n =? 92))%N.

(** A text of ASCII characters. *)
Definition ascii_char (c : ascii) : bool := (N_of_ascii c <? 128)%N.

Definition ascii_text (s : string) : bool := all_chars ascii_char s.

(** The text that validation keeps for a contact field: the given text
    without surrounding white space, and the empty text when none is
    given or the value is not a text. *)
Definition given_text (preferences : gmap string pyval) (key : string) : string :=
  match preferences !! key with
  | Some (VStr s) => strip s
  | _ => ""
  end.

(** The settings after the two loops of validation over the keys. *)
Definition settings (preferences : gmap string pyval) : gmap string pyval :=
  foldl (validate_string preferences)
    (foldl (validate_bool preferences) DEFAULT_PREFERENCES bool_keys) string_keys.

(** A phone number as validation lets it through: empty, or made of
    digits and plus signs and either starting with a plus sign or all
    digits. *)
Definition clean_phone (p : string) : bool :=
  String.eqb p ""
  || (all_chars (fun c => is_digit c || Ascii.eqb c "+") p
      && (startswith "+" p || isdigit p)).

(** An operation on a patient's device tokens. *)
Inductive token_op :=
| AddToken (token : string)
| RemoveToken (token : string).

Definition token_of (op : token_op) : string :=
  match op with AddToken t => t | RemoveToken t => t end.





Definition sample_prescription : Prescription :=
  {| rx_Patient_Name := Some "Alice";
     rx_Medicines :=
       Some [ {| med_Medicine := Some "Amoxicillin"; med_Dosage := Some "500mg";
                 med_Timings := Some ["8:00 AM"; "8:00 PM"];
                 med_Type := Some "Capsule" |} ];
     rx_Date := Some "2025-01-01";
     rx_file_path := None |}.

Definition sample_uuid (k : nat) : string := "id-" +:+ str (Z.of_nat k).

End SpecMore.

Import PyStr Parser Clock UserManager Scheduler Spec.

(** Splits a conjunction of closed equations and evaluates each. *)
Ltac by_computation :=
  cbv zeta;
  repeat match goal with |- _ /\ _ => split end;
  vm_compute; reflexivity.

(** ** Timing parser *)

Lemma zrange_spec lo n z :
  lo <= z < lo + Z.of_nat n -> In z (zrange lo n).
Proof.
  intros Hz. unfold zrange. apply in_map_iff.
  exists (Z.to_nat (z - lo)). split; [lia|].
  apply in_seq. lia.
Qed.

Lemma forallb_zrange (P : Z -> bool) lo n :
  forallb P (zrange lo n) = true ->
  forall z, lo <= z < lo + Z.of_nat n -> P z = true.
Proof.
  intros Hall z Hz. rewrite forallb_forall in Hall.
  apply Hall, zrange_spec, Hz.
Qed.

Lemma in_bools b : In b bools.
Proof. destruct b; simpl; auto. Qed.

Lemma in_minutes m : minute_ok m -> In m minutes.
Proof.
  unfold minutes, minute_ok. destruct m as [m|]; intros Hm.
  - apply in_cons, in_map, zrange_spec. lia.
  - apply in_eq.
Qed.

Lemma clock12_check_all :
  forallb (fun h => forallb (clock12_check h) minutes) (zrange 1 12) = true.
Proof. vm_compute. reflexivity. Qed.

Lemma frequency_check_all :
  forallb (fun a => forallb (fun b => forallb (frequency_check a b)
    (zrange 0 10)) (zrange 0 10)) (zrange 0 10) = true.
Proof. vm_compute. reflexivity. Qed.

(** C1, as the code has it: the parser holds no table of frequency codes.
    "1-0-1", "1-1-1" and every other code of three digits is an hour that
    [int] rejects, and the parser answers the one default time 09:00;
    scheduling a reminder with such a timing adds one job, at 09:00. *)
Theorem parse_time_frequency_code a b c :
  0 <= a <= 9 -> 0 <= b <= 9 -> 0 <= c <= 9 ->
  _parse_time (frequency_code a b c) = "09:00" /\
  forall now s reminder,
    mr_timing reminder = frequency_code a b c ->
    map job_at (jobs (_schedule_daily_reminder now s reminder))
    = (map job_at (jobs s) ++ ["09:00"])%list.
Proof.
  intros Ha Hb Hc.
  pose proof (forallb_zrange _ _ _ frequency_check_all a ltac:(lia)) as Hall.
  cbv beta in Hall.
  pose proof (forallb_zrange _ _ _ Hall b ltac:(lia)) as Hall'.
  cbv beta in Hall'.
  pose proof (forallb_zrange _ _ _ Hall' c ltac:(lia)) as Hchk.
  apply String.eqb_eq in Hchk. split; [exact Hchk | ].
  intros now s reminder Htiming.
  unfold _schedule_daily_reminder, _save_scheduled_reminders_to_file.
  cbn [jobs]. rewrite map_app, Htiming, Hchk. reflexivity.
Qed.

Lemma parse_time_frequency_code_witness :
  (0 <= 1 <= 9 /\ 0 <= 0 <= 9 /\ 0 <= 1 <= 9) /\ _parse_time "1-0-1" = "09:00".
Proof.
  split; [lia|].
  apply (proj1 (parse_time_frequency_code 1 0 1
                  ltac:(lia) ltac:(lia) ltac:(lia))).
Defined.

(** C1, as stated, fails: "1-0-1" does not parse to 08:00 nor to 20:00, and
    scheduling a reminder with that timing creates one job, at 09:00. *)
Lemma parse_time_frequency_code_counterexample :
  _parse_time "1-0-1" <> "08:00" /\ _parse_time "1-0-1" <> "20:00" /\
  forall now reminder,
    mr_timing reminder = "1-0-1" ->
    map job_at (jobs (_schedule_daily_reminder now
      {| jobs := []; scheduled_reminders_cache := ∅; active_reminders_file := ∅ |}
      reminder)) = ["09:00"].
Proof.
  split; [|split].
  - vm_compute. discriminate.
  - vm_compute. discriminate.
  - intros now reminder Htiming. cbn. rewrite Htiming. reflexivity.
Qed.

(** C2: every twelve-hour clock string with an AM or PM suffix (hour 1 to
    12, zero padded or not, with or without a colon and minute, with or
    without a blank, the suffix in any letter case) parses to its
    twenty-four-hour equivalent: 12 AM is hour 00, 12 PM is hour 12, the
    other PM hours gain 12. *)
Theorem parse_time_clock12 padded h m blank mer low1 low2 :
  1 <= h <= 12 -> minute_ok m ->
  _parse_time (clock12_text padded h m blank mer low1 low2)
  = time_text (hour24 h mer) (default 0 m).
Proof.
  intros Hh Hm.
  pose proof (forallb_zrange _ _ _ clock12_check_all h ltac:(lia)) as Hall.
  cbv beta in Hall. rewrite forallb_forall in Hall.
  specialize (Hall m (in_minutes m Hm)). unfold clock12_check in Hall.
  rewrite forallb_forall in Hall. specialize (Hall padded (in_bools _)).
  rewrite forallb_forall in Hall. specialize (Hall blank (in_bools _)).
  rewrite forallb_forall in Hall.
  assert (In mer [AM; PM]) as Hmer by (destruct mer; simpl; auto).
  specialize (Hall mer Hmer).
  rewrite forallb_forall in Hall. specialize (Hall low1 (in_bools _)).
  rewrite forallb_forall in Hall. specialize (Hall low2 (in_bools _)).
  apply String.eqb_eq in Hall. exact Hall.
Qed.

Lemma parse_time_clock12_witness :
  (1 <= 1 <= 12 /\ minute_ok (Some 0)) /\ _parse_time "1:00PM" = "13:00".
Proof.
  split; [split; [lia | simpl; lia]|].
  apply (parse_time_clock12 false 1 (Some 0) false PM false false);
    [lia | simpl; lia].
Defined.

(** The strings the specification names. *)
Example parse_time_named_examples :
  map _parse_time ["12:00AM"; "12AM"; "12:00PM"; "12PM"; "1:00PM"; "1PM"]
  = ["00:00"; "00:00"; "12:00"; "12:00"; "13:00"; "13:00"].
Proof. vm_compute. reflexivity. Qed.

(** The parser is total and its result is always a time of day. *)
Lemma parse_time_try_valid s r :
  parse_time_try s = Some r ->
  exists h m, 0 <= h <= 23 /\ 0 <= m <= 59 /\ r = time_text h m.
Proof.
  unfold parse_time_try. intros Htry.
  apply bind_Some in Htry as (t' & _ & Htry).
  apply bind_Some in Htry as ([hour minute] & _ & Htry).
  apply bind_Some in Htry as (h & _ & Htry).
  apply bind_Some in Htry as (m & _ & Htry).
  destruct (_ || _) eqn:Hrange; [discriminate | ].
  injection Htry as <-. exists h, m.
  repeat (apply orb_false_elim in Hrange as [Hrange ?]).
  split; [lia | ]. split; [lia | reflexivity].
Qed.

Lemma parse_time_valid s :
  exists h m, 0 <= h <= 23 /\ 0 <= m <= 59 /\ _parse_time s = time_text h m.
Proof.
  unfold _parse_time. destruct (parse_time_try s) as [r | ] eqn:Htry.
  - apply parse_time_try_valid in Htry. exact Htry.
  - exists 9, 0. repeat split; try lia.
Qed.

(** C3, where the code departs from it: an hour of 125 is out of range and
    the parser answers 09:00 when the text has no suffix or the suffix PM,
    but with the suffix AM the test [startswith("12")] takes the text for
    the hour 12 and the parser answers 05:00; a text after the 12 and no
    colon is dropped whole. *)
Theorem parse_time_am_prefix_12 :
  _parse_time "125:00AM" = "05:00" /\
  _parse_time "125:00PM" = "09:00" /\
  _parse_time "125:00" = "09:00" /\
  _parse_time "12xAM" = "00:00" /\
  _parse_time "12x" = "09:00".
Proof. by_computation. Qed.

(** *** Colons survive the clean-up *)

Section Colons.

Local Abbreviation colons := (count_char ":").

Lemma count_char_append x a b :
  count_char x (a +:+ b) = (count_char x a + count_char x b)%nat.
Proof.
  induction a as [ | c a IH]; simpl; [reflexivity | rewrite IH; lia].
Qed.

Lemma upper_char_colon c : Ascii.eqb (upper_char c) ":" = Ascii.eqb c ":".
Proof. destruct c as [[] [] [] [] [] [] [] []]; reflexivity. Qed.

Lemma is_space_not_colon c : is_space c = true -> Ascii.eqb c ":" = false.
Proof. destruct c as [[] [] [] [] [] [] [] []]; vm_compute; congruence. Qed.

Lemma colons_upper s : colons (upper s) = colons s.
Proof.
  unfold upper. induction s as [ | c s IH]; [reflexivity | ].
  cbn [map_chars count_char]. rewrite upper_char_colon, IH. reflexivity.
Qed.

Lemma colons_lstrip s : colons (lstrip_by is_space s) = colons s.
Proof.
  induction s as [ | c s IH]; [reflexivity | ].
  cbn [lstrip_by]. destruct (is_space c) eqn:Hc; [ | reflexivity].
  cbn [count_char]. rewrite (is_space_not_colon c Hc). exact IH.
Qed.

Lemma colons_rstrip s : colons (rstrip_by is_space s) = colons s.
Proof.
  induction s as [ | c s IH]; [reflexivity | ].
  cbn [rstrip_by]. destruct (rstrip_by is_space s) as [ | d r] eqn:Hr.
  - destruct (is_space c) eqn:Hc; cbn [count_char] in *.
    + rewrite (is_space_not_colon c Hc). exact IH.
    + rewrite <- IH. reflexivity.
  - cbn [count_char] in *. rewrite <- IH. reflexivity.
Qed.

Lemma colons_strip s : colons (strip s) = colons s.
Proof. unfold strip, strip_by. rewrite colons_rstrip. apply colons_lstrip. Qed.

Lemma prefix_cons_inv p c r :
  String.prefix p (String c r) = true ->
  p = EmptyString \/ exists p', p = String c p' /\ String.prefix p' r = true.
Proof.
  destruct p as [ | a p']; [left; reflexivity | right].
  cbn in H. destruct (ascii_dec a c) as [-> | ]; [ | discriminate].
  exists p'. split; [reflexivity | assumption].
Qed.

(** Replacing a text that has no [x] by another that has none keeps the
    number of [x]. The characters still to skip are a prefix of what is
    left to read, and hold no [x]. *)
Lemma count_char_replace_go x old new :
  old <> EmptyString -> count_char x old = O -> count_char x new = O ->
  forall s count skip p,
    String.prefix p s = true -> String.length p = skip -> count_char x p = O ->
    count_char x (replace_go old new count skip s) = count_char x s.
Proof.
  intros Hne Hold Hnew.
  induction s as [ | c r IH]; intros count skip p Hp Hlen Hcount; [reflexivity | ].
  destruct skip as [ | k]; cbn [replace_go].
  - destruct (negb _ && String.prefix old (String c r)) eqn:Hmatch.
    + apply andb_prop in Hmatch as [_ Hpre].
      apply prefix_cons_inv in Hpre as [-> | (old' & -> & Hpre)]; [congruence | ].
      cbn in Hold. destruct (Ascii.eqb c x) eqn:Hc; [discriminate | ].
      rewrite count_char_append, Hnew. cbn. rewrite Hc. cbn.
      apply (IH _ _ old'); [exact Hpre | reflexivity | exact Hold].
    + cbn. f_equal. apply (IH _ _ EmptyString); [ | reflexivity | reflexivity].
      destruct r; reflexivity.
  - apply prefix_cons_inv in Hp as [-> | (p' & -> & Hp)]; [discriminate | ].
    cbn in Hcount, Hlen. destruct (Ascii.eqb c x) eqn:Hc; [discriminate | ].
    cbn. rewrite Hc. cbn.
    apply (IH _ _ p'); [exact Hp | lia | exact Hcount].
Qed.

Lemma colons_replace old new s :
  old <> EmptyString -> colons old = O -> colons new = O ->
  colons (replace old new s) = colons s.
Proof.
  intros Hne Hold Hnew. unfold replace.
  apply (count_char_replace_go _ _ _ Hne Hold Hnew _ _ _ EmptyString);
    [destruct s; reflexivity | reflexivity | reflexivity].
Qed.

Lemma colons_replace_n old new n s :
  old <> EmptyString -> colons old = O -> colons new = O ->
  colons (replace_n old new n s) = colons s.
Proof.
  intros Hne Hold Hnew. unfold replace_n.
  apply (count_char_replace_go _ _ _ Hne Hold Hnew _ _ _ EmptyString);
    [destruct s; reflexivity | reflexivity | reflexivity].
Qed.

Lemma split_length sep s : length (split sep s) = S (count_char sep s).
Proof.
  induction s as [ | c r IH]; cbn; [reflexivity | ].
  destruct (Ascii.eqb c sep); cbn.
  - rewrite IH. reflexivity.
  - destruct (split sep r); cbn in *; [discriminate | exact IH].
Qed.

Lemma contains_colon s : contains ":" s = negb (colons s =? 0)%nat.
Proof.
  induction s as [ | c r IH]; [reflexivity | ].
  cbn [contains count_char]. rewrite IH. cbn [String.prefix].
  destruct (ascii_dec ":" c) as [<- | Hne].
  - destruct r; reflexivity.
  - assert (Ascii.eqb c ":" = false) as ->
      by (apply Ascii.eqb_neq; congruence).
    reflexivity.
Qed.

Lemma unpack2_split_colons s :
  (2 <= colons s)%nat -> unpack2 (split ":" s) = None.
Proof.
  intros Hs. pose proof (split_length ":" s) as Hlen.
  destruct (split ":" s) as [ | a [ | b [ | c l]]]; cbn in *; try lia; reflexivity.
Qed.

(** The cleaned text of [_parse_time] has the colons of its input. *)
Lemma colons_cleaned s :
  colons (strip (replace "PM" "" (replace "AM" "" (upper (strip s))))) = colons s.
Proof.
  rewrite colons_strip, !colons_replace, colons_upper, colons_strip;
    (reflexivity || discriminate).
Qed.

Lemma parse_time_two_colons s :
  (2 <= colons s)%nat -> _parse_time s = default_time.
Proof.
  intros Hs. unfold _parse_time, parse_time_try.
  pose proof (colons_cleaned s) as Hclean.
  set (t := strip (replace "PM" "" (replace "AM" "" (upper (strip s))))) in *.
  assert (contains ":" t = true) as Hin
    by (rewrite contains_colon; destruct (colons t); [lia | reflexivity]).
  assert (unpack2 (split ":" t) = None) as Hsplit
    by (apply unpack2_split_colons; lia).
  rewrite Hin.
  destruct (contains "PM" _ && negb (startswith "12" t)).
  - rewrite Hsplit. reflexivity.
  - destruct (contains "AM" _ && startswith "12" t); cbn.
    + assert (colons (replace_n "12" "00" 1 t) = colons t) as Hrep
        by (apply colons_replace_n; (reflexivity || discriminate)).
      rewrite contains_colon, Hrep.
      destruct (colons t) as [ | n] eqn:Hn; [lia | ]. cbn.
      rewrite unpack2_split_colons; [reflexivity | lia].
    + rewrite Hin, Hsplit. reflexivity.
Qed.

End Colons.

(** C4, where the code departs from it: this parser does not split a
    range at its dash, as the parser of [backend/alert/med_alert.py]
    does to use the start time. When both endpoints are written with a
    colon, the cleaned text has two colons, the unpacking of its two
    parts fails, and the parser answers the default 09:00 whatever the
    start time is. *)
Theorem parse_time_range start stop :
  contains ":" start = true -> contains ":" stop = true ->
  _parse_time (start +:+ "-" +:+ stop) = "09:00".
Proof.
  intros Hstart Hstop. apply parse_time_two_colons.
  rewrite contains_colon in Hstart, Hstop.
  rewrite !count_char_append. cbn.
  destruct (count_char ":" start); [discriminate | ].
  destruct (count_char ":" stop); [discriminate | ]. lia.
Qed.

Lemma parse_time_range_witness :
  (contains ":" "1:00AM" = true /\ contains ":" "5:00PM" = true) /\
  _parse_time "1:00AM-5:00PM" = "09:00".
Proof.
  split; [split; reflexivity | ].
  apply (parse_time_range "1:00AM" "5:00PM"); reflexivity.
Defined.

(** The range "1:00AM-5:00PM" does not parse to its start time, which
    alone parses to 01:00. *)
Example parse_time_range_not_start :
  _parse_time "1:00AM" = "01:00" /\ _parse_time "1:00AM-5:00PM" <> "01:00".
Proof. split; [vm_compute; reflexivity | vm_compute; discriminate]. Qed.

(** ** Next reminder time *)

Lemma hours_minutes_check_all :
  forallb (fun h => forallb (hours_minutes_check h) (zrange 0 60)) (zrange 0 24)
  = true.
Proof. vm_compute. reflexivity. Qed.

(** [strptime] reads back what [_parse_time] prints. *)
Lemma strptime_time_text h m :
  0 <= h <= 23 -> 0 <= m <= 59 -> strptime_HM (time_text h m) = Some (h, m).
Proof.
  intros Hh Hm.
  pose proof (forallb_zrange _ _ _ hours_minutes_check_all h ltac:(lia)) as Hall.
  cbv beta in Hall.
  pose proof (forallb_zrange _ _ _ Hall m ltac:(lia)) as Hchk.
  unfold hours_minutes_check in Hchk.
  destruct (strptime_HM (time_text h m)) as [[h' m'] | ]; [ | discriminate].
  apply andb_prop in Hchk as [Hh' Hm']. f_equal. f_equal; lia.
Qed.

Lemma ltb_leb_negb a b : ltb a b = negb (leb b a).
Proof.
  unfold ltb, leb.
  destruct (day a <? day b) eqn:H1, (day b <? day a) eqn:H2,
           (day a =? day b) eqn:H3, (day b =? day a) eqn:H4,
           (usec a <? usec b) eqn:H5, (usec b <=? usec a) eqn:H6;
    cbn; try reflexivity; lia.
Qed.

Lemma get_next_reminder_time_value now h m :
  day now < max_ordinal -> 1 <= day now ->
  0 <= h <= 23 -> 0 <= m <= 59 ->
  _get_next_reminder_time now (time_text h m) = expected_next_fire now h m.
Proof.
  intros Hmax Hmin Hh Hm.
  unfold _get_next_reminder_time, get_next_reminder_time_try, expected_next_fire.
  rewrite (strptime_time_text h m Hh Hm). cbn [mbind option_bind].
  rewrite ltb_leb_negb.
  destruct (leb (combine (day now) h m) now); cbn [negb].
  - unfold add_days. cbn [day usec combine].
    assert ((1 <=? day now + 1) && (day now + 1 <=? max_ordinal) = true) as ->
      by (apply andb_true_intro; split; lia).
    reflexivity.
  - reflexivity.
Qed.

Lemma expected_next_fire_future now h m :
  usec now < usec_per_day -> 0 <= h -> 0 <= m ->
  ltb now (expected_next_fire now h m) = true.
Proof.
  intros Hnow Hh Hm. unfold expected_next_fire.
  destruct (ltb now (combine (day now) h m)) eqn:Htoday; [exact Htoday | ].
  unfold ltb, combine. cbn [day usec].
  apply orb_true_intro. left. lia.
Qed.

(** A firing reads the preferences and writes the history; the scheduler
    state, with every stored [next_reminder], is left as it was. *)
Lemma fire_keeps_scheduler sender now w job :
  sched (fire sender now w job) = sched w.
Proof.
  unfold fire, _send_medicine_reminder.
  destruct (sent_successfully _); reflexivity.
Qed.

(** C5, as the code has it: for a valid trigger time [HH:MM] and an
    insertion instant [now] (before the last day of the calendar), the next
    reminder computed on insertion is today at [HH:MM] when that instant
    is strictly later than [now] and tomorrow at [HH:MM] otherwise, so it
    is strictly in the future; a firing leaves the stored value unchanged
    (the daily repetition is the job's, in the scheduling library). *)
Theorem next_reminder_on_add now h m :
  wf now -> day now < max_ordinal -> 0 <= h <= 23 -> 0 <= m <= 59 ->
  _get_next_reminder_time now (time_text h m) = expected_next_fire now h m /\
  ltb now (_get_next_reminder_time now (time_text h m)) = true /\
  forall sender at_time w job, sched (fire sender at_time w job) = sched w.
Proof.
  intros [[Hmin _] [_ Husec]] Hmax Hh Hm.
  rewrite (get_next_reminder_time_value now h m Hmax Hmin Hh Hm).
  split; [reflexivity | ]. split.
  - apply expected_next_fire_future; lia.
  - intros. apply fire_keeps_scheduler.
Qed.

Lemma next_reminder_on_add_witness :
  (wf morning /\ day morning < max_ordinal /\ 0 <= 8 <= 23 /\ 0 <= 0 <= 59) /\
  _get_next_reminder_time morning "08:00" = combine (day morning + 1) 8 0.
Proof.
  split.
  - unfold wf, morning, max_ordinal, usec_per_day. cbn. lia.
  - apply (next_reminder_on_add morning 8 0);
      unfold wf, morning, max_ordinal, usec_per_day; cbn; lia.
Defined.

(** The reminder that [_schedule_daily_reminder] appends to the patient's
    list carries that next reminder time. *)
Lemma schedule_daily_reminder_next now s reminder :
  wf now -> day now < max_ordinal ->
  exists h m sr,
    0 <= h <= 23 /\ 0 <= m <= 59 /\
    _parse_time (mr_timing reminder) = time_text h m /\
    last (default [] (scheduled_reminders_cache
            (_schedule_daily_reminder now s reminder) !! mr_patient_name reminder))
    = Some sr /\
    next_reminder sr = expected_next_fire now h m /\
    ltb now (next_reminder sr) = true.
Proof.
  intros Hwf Hmax.
  destruct (parse_time_valid (mr_timing reminder)) as (h & m & Hh & Hm & Hparse).
  destruct Hwf as [[Hmin _] [_ Husec]].
  pose proof (get_next_reminder_time_value now h m Hmax Hmin Hh Hm) as Hval.
  assert (ltb now (_get_next_reminder_time now (time_text h m)) = true) as Hfut
    by (rewrite Hval; apply expected_next_fire_future; lia).
  exists h, m. eexists. split; [exact Hh | ]. split; [exact Hm | ].
  split; [exact Hparse | ].
  unfold _schedule_daily_reminder, _save_scheduled_reminders_to_file.
  cbn [scheduled_reminders_cache]. rewrite lookup_insert_eq. cbn [from_option id].
  rewrite last_snoc. split; [reflexivity | ].
  cbn [next_reminder]. rewrite Hparse. split; assumption.
Qed.

(** C5, as stated, fails on its last part: a reminder for 08:00 added at
    08:05 is due the next day at 08:00, and after a firing the stored value
    is the same, not one day later. *)
Lemma next_reminder_after_firing_counterexample :
  let reminder := reminder_of "Alice" "Amoxicillin" "8:00 AM" in
  let s := _schedule_daily_reminder morning empty_scheduler reminder in
  let w := fire (sender_const true) (combine (day morning + 1) 8 0) (world_of s)
             {| job_at := "08:00"; job_reminder := reminder;
                job_tag := job_id_of reminder |} in
  next_reminders s "Alice" = [combine (day morning + 1) 8 0] /\
  next_reminders (sched w) "Alice" = [combine (day morning + 1) 8 0] /\
  next_reminders (sched w) "Alice" <> [combine (day morning + 2) 8 0].
Proof.
  cbv zeta. rewrite fire_keeps_scheduler. cbn [world_of sched].
  assert (next_reminders
            (_schedule_daily_reminder morning empty_scheduler
               (reminder_of "Alice" "Amoxicillin" "8:00 AM")) "Alice"
          = [combine (day morning + 1) 8 0]) as Hnext.
  { vm_compute. reflexivity. }
  rewrite Hnext. split; [reflexivity | ]. split; [reflexivity | ].
  vm_compute. discriminate.
Qed.

(** ** Delivery history *)

Section History.

Context {A : Type}.
Implicit Types l : list A.

Lemma slice_last_length n l : (length (slice_last n l) <= n)%nat.
Proof. unfold slice_last. rewrite length_drop. lia. Qed.

Lemma slice_last_short n l : (length l <= n)%nat -> slice_last n l = l.
Proof.
  intros Hlen. unfold slice_last.
  replace (length l - n)%nat with O by lia. apply drop_0.
Qed.

(** What is kept is the end of the list: some prefix is dropped. *)
Lemma slice_last_suffix n l : exists dropped, l = (dropped ++ slice_last n l)%list.
Proof.
  exists (take (length l - n) l). unfold slice_last.
  symmetry. apply take_drop.
Qed.

(** Truncating before an append does not change the truncated result. *)
Lemma slice_last_snoc n l x :
  slice_last n (slice_last n l ++ [x]) = slice_last n (l ++ [x]).
Proof.
  unfold slice_last. rewrite !length_app, length_drop. cbn [length].
  rewrite <- (drop_app_le l [x] (length l - n)) by lia.
  rewrite drop_drop. f_equal. lia.
Qed.

(** The entry just appended is the last one kept. *)
Lemma slice_last_last n l x : last (slice_last (S n) (l ++ [x])) = Some x.
Proof.
  unfold slice_last.
  rewrite drop_app_le by (rewrite length_app; cbn [length]; lia).
  apply last_snoc.
Qed.

Lemma slice_last_app n l k :
  slice_last n (slice_last n l ++ k) = slice_last n (l ++ k).
Proof.
  revert l. induction k as [ | x k IH]; intros l.
  - rewrite !app_nil_r. apply slice_last_short, slice_last_length.
  - rewrite !(cons_middle x), !app_assoc.
    rewrite <- IH, slice_last_snoc, IH. reflexivity.
Qed.

End History.

Lemma records_for_app path evs evs' :
  records_for path (evs ++ evs')
  = (records_for path evs ++ records_for path evs')%list.
Proof.
  induction evs as [ | ev evs IH]; [reflexivity | ].
  cbn [app records_for]. destruct (String.eqb _ _); rewrite IH; reflexivity.
Qed.

(** When the file can be opened for writing and what it holds decodes,
    the record is appended and the last 100 entries are written. *)
Lemma store_reminder_history_written can_write files now reminder success
    preferences via :
  can_write (history_path (mr_patient_name reminder)) = true ->
  decodes files (history_path (mr_patient_name reminder)) ->
  _store_reminder_history can_write files now reminder success preferences via
  = <[history_path (mr_patient_name reminder) :=
        HistoryList
          (slice_last 100
             (history_of files (history_path (mr_patient_name reminder))
                ++ [make_history_record now reminder success via]))]> files.
Proof.
  intros Hwrite Hdec.
  unfold _store_reminder_history, store_reminder_history_try, history_of, decodes in *.
  cbv zeta. rewrite Hwrite.
  destruct (files !! history_path (mr_patient_name reminder)) as [[records | ] | ];
    [reflexivity | congruence | reflexivity].
Qed.

(** When the file cannot be opened for writing, or what it holds does not
    decode, the handler runs and the files stay as they were. *)
Lemma store_reminder_history_failed can_write files now reminder success
    preferences via :
  can_write (history_path (mr_patient_name reminder)) = false \/
  ~ decodes files (history_path (mr_patient_name reminder)) ->
  _store_reminder_history can_write files now reminder success preferences via
  = files.
Proof.
  intros Hfail.
  unfold _store_reminder_history, store_reminder_history_try, decodes in *.
  cbv zeta.
  destruct (files !! history_path (mr_patient_name reminder)) as [[records | ] | ];
    cbn; try reflexivity;
    destruct (can_write (history_path (mr_patient_name reminder))) eqn:Hwrite;
    try reflexivity;
    destruct Hfail as [Hfail | Hfail]; try discriminate;
    exfalso; apply Hfail; discriminate.
Qed.

(** A record operation changes no file but the patient's own. *)
Lemma store_event_other can_write files ev path :
  event_path ev <> path ->
  store_event can_write files ev !! path = files !! path.
Proof.
  intros Hpath. unfold store_event, _store_reminder_history,
    store_reminder_history_try. cbv zeta. fold (event_path ev).
  destruct (match files !! event_path ev with
            | Some file => load_history file
            | None => Some []
            end) as [history | ]; cbn; [ | reflexivity].
  destruct (can_write (event_path ev)); cbn; [ | reflexivity].
  apply lookup_insert_ne, Hpath.
Qed.

Lemma history_of_store_event can_write files ev path :
  can_write path = true -> decodes files path ->
  history_of (store_event can_write files ev) path
  = (if String.eqb (event_path ev) path
     then slice_last 100 (history_of files path ++ [event_record ev])
     else history_of files path) /\
  decodes (store_event can_write files ev) path.
Proof.
  intros Hwrite Hdec.
  destruct (String.eqb (event_path ev) path) eqn:Hpath.
  - apply String.eqb_eq in Hpath as <-.
    unfold store_event, event_path in *.
    rewrite store_reminder_history_written by assumption.
    unfold history_of at 1, decodes. rewrite lookup_insert_eq.
    split; [reflexivity | discriminate].
  - apply String.eqb_neq in Hpath.
    unfold history_of, decodes.
    rewrite (store_event_other can_write files ev path Hpath).
    split; [reflexivity | exact Hdec].
Qed.

(** After any sequence of record operations a history file that can be
    written holds the end of what it held before followed by what was
    appended. *)
Lemma history_of_store_all can_write files evs path :
  can_write path = true -> decodes files path ->
  decodes (store_all can_write files evs) path /\
  slice_last 100 (history_of (store_all can_write files evs) path)
  = slice_last 100 (history_of files path ++ records_for path evs) /\
  (records_for path evs <> [] ->
   history_of (store_all can_write files evs) path
   = slice_last 100 (history_of files path ++ records_for path evs)).
Proof.
  intros Hwrite Hdec.
  induction evs as [ | ev evs (IHdec & IHcut & IHeq)] using rev_ind.
  - cbn. rewrite app_nil_r. split; [exact Hdec | ].
    split; [reflexivity | congruence].
  - unfold store_all in *. rewrite foldl_app. cbn [foldl].
    destruct (history_of_store_event can_write
                (foldl (store_event can_write) files evs) ev path Hwrite IHdec)
      as [Hstep Hdec'].
    split; [exact Hdec' | ].
    rewrite Hstep, records_for_app. cbn [records_for].
    destruct (String.eqb (event_path ev) path).
    + rewrite app_assoc, <- (slice_last_snoc 100 (_ ++ _)), <- IHcut.
      rewrite slice_last_snoc.
      split; [ | intros _; reflexivity].
      apply slice_last_short, slice_last_length.
    + rewrite app_nil_r. split; assumption.
Qed.

Lemma store_event_failed can_write files ev :
  can_write (event_path ev) = false \/ ~ decodes files (event_path ev) ->
  store_event can_write files ev = files.
Proof. apply store_reminder_history_failed. Qed.

(** Record operations on a file that cannot be opened for writing, or
    that does not decode, leave it as it is. *)
Lemma store_all_failed can_write files evs path :
  can_write path = false \/ ~ decodes files path ->
  store_all can_write files evs !! path = files !! path.
Proof.
  intros Hfail.
  induction evs as [ | ev evs IH] using rev_ind; [reflexivity | ].
  unfold store_all in *. rewrite foldl_app. cbn [foldl].
  destruct (String.eqb (event_path ev) path) eqn:Hpath.
  - apply String.eqb_eq in Hpath.
    rewrite store_event_failed; [exact IH | ]. rewrite Hpath.
    destruct Hfail as [Hfail | Hfail]; [left; exact Hfail | right].
    unfold decodes in *. rewrite IH. exact Hfail.
  - apply String.eqb_neq in Hpath. rewrite store_event_other by exact Hpath.
    exact IH.
Qed.

(** Whether the writes succeed or not, a history of at most 100 entries
    never grows beyond 100. *)
Lemma history_bound_kept can_write files evs path :
  (length (history_of files path) <= 100)%nat ->
  (length (history_of (store_all can_write files evs) path) <= 100)%nat.
Proof.
  intros Hlen.
  induction evs as [ | ev evs IH] using rev_ind; [exact Hlen | ].
  unfold store_all in *. rewrite foldl_app. cbn [foldl].
  set (before := foldl (store_event can_write) files evs) in *.
  destruct (String.eqb (event_path ev) path) eqn:Hpath.
  - apply String.eqb_eq in Hpath.
    destruct (can_write path) eqn:Hwrite.
    + destruct (before !! path) as [[records | ] | ] eqn:Hfile.
      * destruct (history_of_store_event can_write before ev path Hwrite)
          as [-> _]; [unfold decodes; rewrite Hfile; discriminate | ].
        rewrite <- Hpath, String.eqb_refl. apply slice_last_length.
      * rewrite store_event_failed; [exact IH | ]. right. rewrite Hpath.
        unfold decodes. rewrite Hfile. intros Hne. apply Hne. reflexivity.
      * destruct (history_of_store_event can_write before ev path Hwrite)
          as [-> _]; [unfold decodes; rewrite Hfile; discriminate | ].
        rewrite <- Hpath, String.eqb_refl. apply slice_last_length.
    + rewrite store_event_failed; [exact IH | ]. left. rewrite Hpath.
      exact Hwrite.
  - apply String.eqb_neq in Hpath. unfold history_of in *.
    rewrite store_event_other by exact Hpath. exact IH.
Qed.

(** C6: after a sequence of record operations for a patient whose history
    file can be opened for writing and, if it exists, decodes, the
    history holds at most 100 entries, and they are the last 100, in
    append order, of the former entries followed by the appended ones:
    the oldest are dropped. (A record operation on a file that cannot be
    written, as for a name with a slash in a directory without
    sub-directories, stores nothing: [store_all_failed]; a history within
    the bound then stays within it: [history_bound_kept].) *)
Theorem history_bounded can_write files evs patient :
  can_write (history_path patient) = true ->
  decodes files (history_path patient) ->
  records_for (history_path patient) evs <> [] ->
  (length (history_of (store_all can_write files evs) (history_path patient))
   <= 100)%nat /\
  history_of (store_all can_write files evs) (history_path patient)
  = slice_last 100
      (history_of files (history_path patient)
         ++ records_for (history_path patient) evs) /\
  exists dropped,
    (history_of files (history_path patient)
       ++ records_for (history_path patient) evs)%list
    = (dropped
         ++ history_of (store_all can_write files evs) (history_path patient))%list.
Proof.
  intros Hwrite Hdec Hwritten.
  destruct (history_of_store_all can_write files evs (history_path patient)
              Hwrite Hdec) as (_ & _ & Heq).
  rewrite (Heq Hwritten).
  split; [apply slice_last_length | ]. split; [reflexivity | ].
  apply slice_last_suffix.
Qed.

Lemma history_bounded_witness :
  (flat_directory (history_path "Alice") = true /\
   decodes ∅ (history_path "Alice") /\
   records_for (history_path "Alice") (replicate 101 sample_event) <> []) /\
  length (history_of (store_all flat_directory ∅ (replicate 101 sample_event))
            (history_path "Alice")) = 100%nat.
Proof.
  assert (flat_directory (history_path "Alice") = true) as Hwrite
    by (vm_compute; reflexivity).
  assert (decodes ∅ (history_path "Alice")) as Hdec
    by (unfold decodes; rewrite lookup_empty; discriminate).
  assert (records_for (history_path "Alice") (replicate 101 sample_event) <> [])
    as Hwritten by (vm_compute; discriminate).
  split; [split; [exact Hwrite | split; [exact Hdec | exact Hwritten]] | ].
  destruct (history_bounded flat_directory ∅ (replicate 101 sample_event) "Alice"
              Hwrite Hdec Hwritten) as (_ & -> & _).
  vm_compute. reflexivity.
Defined.

(** In a directory without sub-directories no record is stored for a
    patient whose name holds a slash. *)
Example history_of_name_with_slash :
  let reminder := reminder_of "A/B" "Amoxicillin" "8:00 AM" in
  flat_directory (history_path "A/B") = false /\
  _store_reminder_history flat_directory ∅ morning reminder true
    DEFAULT_PREFERENCES ["push"] = ∅.
Proof.
  cbv zeta. split; [vm_compute; reflexivity | ].
  apply store_reminder_history_failed. left. vm_compute. reflexivity.
Qed.

(** ** Dispatch *)

(** Names the conditions and the answers of the sender, then tries every
    combination of them. *)
Ltac dispatch_cases :=
  repeat match goal with
         | |- context [truthy ?v] =>
             let b := fresh "flag" in
             generalize (truthy v); intros b
         end;
  repeat match goal with
         | |- context [send_push_notification ?s ?a ?b ?c] =>
             let ok := fresh "ok" in
             generalize (send_push_notification s a b c); intros ok
         | |- context [send_email_notification ?s ?a ?b ?c] =>
             let ok := fresh "ok" in
             generalize (send_email_notification s a b c); intros ok
         | |- context [send_sms_notification ?s ?a ?b] =>
             let ok := fresh "ok" in
             generalize (send_sms_notification s a b); intros ok
         | |- context [send_whatsapp_notification ?s ?a ?b] =>
             let ok := fresh "ok" in
             generalize (send_whatsapp_notification s a b); intros ok
         end;
  repeat match goal with
         | b : bool |- _ => destruct b
         end.

Ltac unfold_dispatch :=
  unfold send_all, keep, all_channels, channel_ready, channel_enabled,
    contact_present, channel_contact, channel_flag, delivery, attempted,
    dispatch_init;
  cbn [List.filter fst snd].

Lemma send_all_calls sender preferences reminder :
  map call_channel (calls (send_all sender preferences reminder))
  = keep (channel_ready preferences) all_channels.
Proof. unfold_dispatch. dispatch_cases; reflexivity. Qed.


(** The flag [sent_successfully] says that some channel succeeded. *)
Lemma send_all_successfully sender preferences reminder :
  sent_successfully (send_all sender preferences reminder)
  = match sent_via (send_all sender preferences reminder) with
    | [] => false
    | _ => true
    end.
Proof. unfold_dispatch. dispatch_cases; reflexivity. Qed.






(** What a firing does to the history: on the branch where some channel
    succeeded the recorder is called, with [success = True]; the other
    branch does not call it. *)
Lemma firing_history sender now w reminder :
  history_files (fst (_send_medicine_reminder sender now w reminder))
  = (let preferences :=
       get_user_preferences (preference_files w) (mr_patient_name reminder) in
     match sent_via (send_all sender preferences reminder) with
     | [] => history_files w
     | via =>
         _store_reminder_history (history_writable w) (history_files w) now
           reminder true preferences via
     end).
Proof.
  unfold _send_medicine_reminder. cbv zeta.
  rewrite send_all_successfully.
  destruct (sent_via _) as [ | name via] eqn:Hvia; reflexivity.
Qed.

(** C7, where the code departs from it: the recorder is written to store
    failures too (called with [success = False] on a file that can be
    written it appends a record with the status "failed"), but a firing
    calls it only on the branch where some channel succeeded. So when
    every attempted channel fails, the firing leaves everything as it
    was and no record is stored. The rest of the claim holds: the answers
    of the deliveries do not change which channels are attempted, and a
    firing leaves the scheduler, with its jobs, as it was. *)
Theorem failed_firing_not_recorded sender now w reminder :
  let preferences :=
    get_user_preferences (preference_files w) (mr_patient_name reminder) in
  let path := history_path (mr_patient_name reminder) in
  sent_via (send_all sender preferences reminder) = [] ->
  fst (_send_medicine_reminder sender now w reminder) = w /\
  (history_writable w path = true -> decodes (history_files w) path ->
   last (history_of
           (_store_reminder_history (history_writable w) (history_files w) now
              reminder false preferences [])
           path)
   = Some (make_history_record now reminder false []) /\
   hr_status (make_history_record now reminder false []) = "failed") /\
  (forall sender' preferences',
     map call_channel (calls (send_all sender' preferences' reminder))
     = map call_channel (calls (send_all sender preferences' reminder))) /\
  (forall sender',
     sched (fst (_send_medicine_reminder sender' now w reminder)) = sched w).
Proof.
  cbv zeta. intros Hvia. split; [ | split; [ | split]].
  - unfold _send_medicine_reminder. cbv zeta.
    rewrite send_all_successfully, Hvia. reflexivity.
  - intros Hwrite Hdec.
    rewrite store_reminder_history_written by assumption.
    unfold history_of at 1. rewrite lookup_insert_eq.
    cbn [mbind option_bind load_history from_option id].
    split; [apply slice_last_last | reflexivity].
  - intros sender' preferences'. rewrite !send_all_calls. reflexivity.
  - intros sender'. unfold _send_medicine_reminder.
    destruct (sent_successfully _); reflexivity.
Qed.

Lemma failed_firing_not_recorded_witness :
  let reminder := reminder_of "Alice" "Amoxicillin" "8:00 AM" in
  let w := world_of (_schedule_daily_reminder morning empty_scheduler reminder) in
  let result := _send_medicine_reminder (sender_const false)
                  (combine (day morning + 1) 8 0) w reminder in
  sent_via (send_all (sender_const false)
              (get_user_preferences (preference_files w) "Alice") reminder) = [] /\
  map call_channel (calls (snd result)) = [Push] /\
  fst result = w /\
  history_files (fst result) !! history_path "Alice" = None.
Proof.
  cbv zeta.
  assert (sent_via
            (send_all (sender_const false)
               (get_user_preferences
                  (preference_files
                     (world_of (_schedule_daily_reminder morning empty_scheduler
                                  (reminder_of "Alice" "Amoxicillin" "8:00 AM"))))
                  "Alice")
               (reminder_of "Alice" "Amoxicillin" "8:00 AM")) = []) as Hvia
    by (vm_compute; reflexivity).
  split; [exact Hvia | ]. split; [vm_compute; reflexivity | ].
  destruct (failed_firing_not_recorded (sender_const false)
              (combine (day morning + 1) 8 0)
              (world_of (_schedule_daily_reminder morning empty_scheduler
                           (reminder_of "Alice" "Amoxicillin" "8:00 AM")))
              (reminder_of "Alice" "Amoxicillin" "8:00 AM") Hvia) as [Hsame _].
  split; [exact Hsame | ]. rewrite Hsame. reflexivity.
Defined.

(** ** Removing a patient's reminders *)

Lemma filter_idempotent {A} (f : A -> bool) (l : list A) :
  List.filter f (List.filter f l) = List.filter f l.
Proof.
  induction l as [ | x l IH]; [reflexivity | ].
  cbn [List.filter]. destruct (f x) eqn:Hx; [ | exact IH].
  cbn [List.filter]. rewrite Hx, IH. reflexivity.
Qed.

(** Removing twice is removing once. *)
Lemma remove_patient_reminders_idempotent s patient :
  remove_patient_reminders (remove_patient_reminders s patient) patient
  = remove_patient_reminders s patient.
Proof.
  unfold remove_patient_reminders, _save_scheduled_reminders_to_file.
  cbn [jobs scheduled_reminders_cache].
  rewrite filter_idempotent.
  rewrite (delete_id (delete patient _)) by apply lookup_delete_eq.
  reflexivity.
Qed.

(** The cached lists of the other patients are not touched. *)
Lemma remove_patient_reminders_cache_other s patient other :
  patient <> other ->
  scheduled_reminders_cache (remove_patient_reminders s patient) !! other
  = scheduled_reminders_cache s !! other.
Proof. intros Hne. cbn. apply lookup_delete_ne, Hne. Qed.

(** For a patient the cache does not know, the cache is unchanged, and so
    are the jobs whose tag does not contain the name. *)
Lemma remove_patient_reminders_unknown s patient :
  scheduled_reminders_cache s !! patient = None ->
  scheduled_reminders_cache (remove_patient_reminders s patient)
  = scheduled_reminders_cache s /\
  forall job, In job (jobs s) -> job_matches patient job = false ->
              In job (jobs (remove_patient_reminders s patient)).
Proof.
  intros Hunknown. cbn. split; [apply delete_id, Hunknown | ].
  intros job Hin Hmatch. apply filter_In. rewrite Hmatch. auto.
Qed.

(** C9, where the code departs from it: the jobs to cancel are chosen by
    looking for the name inside the text of the tags. With Alice's
    reminder scheduled, removing the reminders of the unknown patient
    "Al" cancels Alice's job, while her cached reminder stays listed. *)
Theorem remove_unknown_patient_cancels_other :
  let reminder := reminder_of "Alice" "Amoxicillin" "8:00 AM" in
  let s := _schedule_daily_reminder morning empty_scheduler reminder in
  let s' := remove_patient_reminders s "Al" in
  scheduled_reminders_cache s !! "Al" = None /\
  map str_tags (jobs s) = ["{'Alice_Amoxicillin_8:00_AM'}"] /\
  map job_reminder (jobs s) = [reminder] /\
  jobs s' = [] /\
  scheduled_reminders_cache s' = scheduled_reminders_cache s.
Proof. by_computation. Qed.

(** ** Reading preferences *)

Lemma default_preferences_values :
  DEFAULT_PREFERENCES !! "push_notifications" = Some (VBool true) /\
  DEFAULT_PREFERENCES !! "email_notifications" = Some (VBool false) /\
  DEFAULT_PREFERENCES !! "sms_notifications" = Some (VBool false) /\
  DEFAULT_PREFERENCES !! "whatsapp_notifications" = Some (VBool false) /\
  DEFAULT_PREFERENCES !! "email" = Some (VStr "") /\
  DEFAULT_PREFERENCES !! "phone" = Some (VStr "") /\
  DEFAULT_PREFERENCES !! "whatsapp" = Some (VStr "").
Proof. by_computation. Qed.

Lemma dict_update_lookup {V} (d other : gmap string V) key :
  dict_update d other !! key
  = match other !! key with
    | Some v => Some v
    | None => d !! key
    end.
Proof.
  unfold dict_update. rewrite lookup_union.
  destruct (other !! key), (d !! key); reflexivity.
Qed.

(** C10: reading preferences always answers; the answer has every key of
    the defaults, a stored value overriding the default of its key; for a
    patient with no stored preferences it is the defaults, where push is
    enabled, email, SMS and WhatsApp are disabled and the contact fields
    are empty. *)
Theorem get_user_preferences_complete files patient :
  dom DEFAULT_PREFERENCES ⊆ dom (get_user_preferences files patient) /\
  (forall key,
     get_user_preferences files patient !! key
     = match files !! preferences_path patient with
       | Some (PrefObject stored) =>
           match stored !! key with
           | Some v => Some v
           | None => DEFAULT_PREFERENCES !! key
           end
       | _ => DEFAULT_PREFERENCES !! key
       end) /\
  match files !! preferences_path patient with
  | None => get_user_preferences files patient = DEFAULT_PREFERENCES
  | Some _ => True
  end /\
  DEFAULT_PREFERENCES !! "push_notifications" = Some (VBool true) /\
  DEFAULT_PREFERENCES !! "email_notifications" = Some (VBool false) /\
  DEFAULT_PREFERENCES !! "sms_notifications" = Some (VBool false) /\
  DEFAULT_PREFERENCES !! "whatsapp_notifications" = Some (VBool false) /\
  DEFAULT_PREFERENCES !! "email" = Some (VStr "") /\
  DEFAULT_PREFERENCES !! "phone" = Some (VStr "") /\
  DEFAULT_PREFERENCES !! "whatsapp" = Some (VStr "").
Proof.
  unfold get_user_preferences.
  split; [ | split; [ | split; [ | apply default_preferences_values]]].
  - destruct (files !! preferences_path patient) as [[stored | ] | ];
      [ | reflexivity | reflexivity].
    unfold dict_update. rewrite dom_union_L. apply union_subseteq_r.
  - intros key.
    destruct (files !! preferences_path patient) as [[stored | ] | ];
      [ | reflexivity | reflexivity].
    apply dict_update_lookup.
  - destruct (files !! preferences_path patient); [exact I | reflexivity].
Qed.

(** A stored object that only sets the email address. *)
Example get_user_preferences_stored_example :
  let files := {[ preferences_path "Alice Smith" :=
                    PrefObject {[ "email" := VStr "alice@example.org" ]} ]} in
  preferences_path "Alice Smith" = "alice_smith_preferences.json" /\
  get_user_preferences files "Alice Smith" !! "email"
  = Some (VStr "alice@example.org") /\
  get_user_preferences files "Alice Smith" !! "push_notifications"
  = Some (VBool true) /\
  get_user_preferences files "Bob" !! "email" = Some (VStr "").
Proof. by_computation. Qed.

Import SchedulerOps UserStore Sender SpecMore.

(** * Further properties of the code *)

(** ** Timing parser *)

Lemma time_check_all :
  forallb (fun h => forallb (time_check h) (zrange 0 60)) (zrange 0 24) = true.
Proof. vm_compute. reflexivity. Qed.

Lemma hour_check_all : forallb hour_check (zrange 0 24) = true.
Proof. vm_compute. reflexivity. Qed.

Lemma parse_time_time_text h m :
  0 <= h <= 23 -> 0 <= m <= 59 -> _parse_time (time_text h m) = time_text h m.
Proof.
  intros Hh Hm.
  pose proof (forallb_zrange _ _ _ time_check_all h ltac:(lia)) as Hall.
  cbv beta in Hall.
  pose proof (forallb_zrange _ _ _ Hall m ltac:(lia)) as Hchk.
  apply andb_prop in Hchk as [Hchk _]. apply String.eqb_eq, Hchk.
Qed.

(** X1: parsing is idempotent: the parser's answer is a time [HH:MM]
    that the parser maps to itself. *)
Theorem parse_time_idempotent s :
  _parse_time (_parse_time s) = _parse_time s.
Proof.
  destruct (parse_time_valid s) as (h & m & Hh & Hm & ->).
  apply parse_time_time_text; assumption.
Qed.

(** X2: a time of the 24-hour clock without suffix, the hour written with
    one or two digits, is kept and printed with two digits; an hour alone
    means that hour, zero minutes. *)
Theorem parse_time_24h h m :
  0 <= h <= 23 -> 0 <= m <= 59 ->
  _parse_time (str h +:+ ":" +:+ fmt02d m) = time_text h m /\
  _parse_time (fmt02d h +:+ ":" +:+ fmt02d m) = time_text h m /\
  _parse_time (str h) = time_text h 0.
Proof.
  intros Hh Hm.
  pose proof (forallb_zrange _ _ _ time_check_all h ltac:(lia)) as Hall.
  cbv beta in Hall.
  pose proof (forallb_zrange _ _ _ Hall m ltac:(lia)) as Hchk.
  apply andb_prop in Hchk as [Hpadded Hplain].
  pose proof (forallb_zrange _ _ _ hour_check_all h ltac:(lia)) as Hhour.
  split; [apply String.eqb_eq, Hplain | ].
  split; [apply String.eqb_eq, Hpadded | apply String.eqb_eq, Hhour].
Qed.

Lemma parse_time_24h_witness :
  (0 <= 7 <= 23 /\ 0 <= 5 <= 59) /\ _parse_time "7:05" = "07:05".
Proof.
  split; [lia | ].
  apply (proj1 (parse_time_24h 7 5 ltac:(lia) ltac:(lia))).
Defined.

(** ** Next reminder time *)

(** X3: the next reminder computed on insertion is at the trigger time
    [HH:MM], later than [now] and at most one day later. *)
Theorem next_reminder_within_a_day now h m :
  wf now -> day now < max_ordinal -> 0 <= h <= 23 -> 0 <= m <= 59 ->
  let next := _get_next_reminder_time now (time_text h m) in
  usec next = (h * 3600 + m * 60) * 1000000 /\
  ltb now next = true /\
  leb next {| day := day now + 1; usec := usec now |} = true.
Proof.
  intros [[Hmin _] [Hlo Husec]] Hmax Hh Hm. cbv zeta.
  rewrite (get_next_reminder_time_value now h m Hmax Hmin Hh Hm).
  split; [ | split].
  - unfold expected_next_fire. destruct (ltb _ _); reflexivity.
  - apply expected_next_fire_future; lia.
  - unfold expected_next_fire.
    destruct (ltb now (combine (day now) h m)) eqn:Htoday;
      unfold leb, ltb, combine in *; cbn [day usec] in *.
    + apply orb_true_intro. left. lia.
    + apply orb_false_elim in Htoday as [_ Htoday].
      rewrite Z.eqb_refl in Htoday. cbn in Htoday.
      apply orb_true_intro. right. rewrite Z.eqb_refl. cbn. lia.
Qed.

Lemma next_reminder_within_a_day_witness :
  (wf morning /\ day morning < max_ordinal /\ 0 <= 8 <= 23 /\ 0 <= 0 <= 59) /\
  ltb morning (_get_next_reminder_time morning "08:00") = true.
Proof.
  split.
  - unfold wf, morning, max_ordinal, usec_per_day. cbn. lia.
  - apply (next_reminder_within_a_day morning 8 0);
      unfold wf, morning, max_ordinal, usec_per_day; cbn; lia.
Defined.

(** ** Scheduling a prescription *)

Lemma schedule_daily_jobs now s reminder :
  jobs (_schedule_daily_reminder now s reminder) = (jobs s ++ [job_of reminder])%list.
Proof. reflexivity. Qed.

Lemma schedule_daily_cache now s reminder :
  scheduled_reminders_cache (_schedule_daily_reminder now s reminder)
  = <[mr_patient_name reminder :=
        (cached s (mr_patient_name reminder) ++ [scheduled_of now reminder])%list]>
      (scheduled_reminders_cache s).
Proof. reflexivity. Qed.

Lemma schedule_daily_file now s reminder :
  active_reminders_file (_schedule_daily_reminder now s reminder)
  = scheduled_reminders_cache (_schedule_daily_reminder now s reminder).
Proof. reflexivity. Qed.

Lemma schedule_all_jobs now rs s :
  jobs (foldl (_schedule_daily_reminder now) s rs) = (jobs s ++ map job_of rs)%list.
Proof.
  revert s. induction rs as [ | r rs IH]; intros s; cbn [foldl map].
  - rewrite app_nil_r. reflexivity.
  - rewrite IH, schedule_daily_jobs, <- app_assoc. reflexivity.
Qed.

Lemma schedule_daily_cached now s reminder :
  cached (_schedule_daily_reminder now s reminder) (mr_patient_name reminder)
  = (cached s (mr_patient_name reminder) ++ [scheduled_of now reminder])%list.
Proof.
  unfold cached at 1. rewrite schedule_daily_cache, lookup_insert_eq. reflexivity.
Qed.

Lemma schedule_daily_others now s reminder :
  delete (mr_patient_name reminder)
    (scheduled_reminders_cache (_schedule_daily_reminder now s reminder))
  = delete (mr_patient_name reminder) (scheduled_reminders_cache s).
Proof. rewrite schedule_daily_cache. apply delete_insert_eq. Qed.

(** The reminders of one patient, scheduled in a row, extend that
    patient's cached list and leave the other lists alone. *)
Lemma schedule_all_cache now patient rs s :
  Forall (fun r => mr_patient_name r = patient) rs ->
  cached (foldl (_schedule_daily_reminder now) s rs) patient
  = (cached s patient ++ map (scheduled_of now) rs)%list /\
  delete patient (scheduled_reminders_cache (foldl (_schedule_daily_reminder now) s rs))
  = delete patient (scheduled_reminders_cache s).
Proof.
  revert s. induction rs as [ | r rs IH]; intros s Hall; cbn [foldl map].
  - rewrite app_nil_r. split; reflexivity.
  - apply Forall_cons in Hall as [Hr Hall].
    destruct (IH (_schedule_daily_reminder now s r) Hall) as [IHp IHd].
    rewrite IHp, IHd. subst patient.
    rewrite schedule_daily_cached, schedule_daily_others, <- app_assoc.
    split; reflexivity.
Qed.

Lemma schedule_all_file now rs s :
  active_reminders_file s = scheduled_reminders_cache s ->
  active_reminders_file (foldl (_schedule_daily_reminder now) s rs)
  = scheduled_reminders_cache (foldl (_schedule_daily_reminder now) s rs).
Proof.
  revert s. induction rs as [ | r rs IH]; intros s Hs; cbn [foldl]; [exact Hs | ].
  apply IH, schedule_daily_file.
Qed.

Lemma reminders_from_app rx uuid k a b :
  reminders_from rx uuid k (a ++ b)
  = (reminders_from rx uuid k a ++ reminders_from rx uuid (k + length a) b)%list.
Proof.
  revert k. induction a as [ | x a IH]; intros k; cbn [app reminders_from length].
  - rewrite Nat.add_0_r. reflexivity.
  - rewrite IH. replace (S k + length a)%nat with (k + S (length a))%nat by lia.
    reflexivity.
Qed.

Lemma reminders_from_length rx uuid k pairs :
  length (reminders_from rx uuid k pairs) = length pairs.
Proof.
  revert k. induction pairs as [ | x pairs IH]; intros k; cbn; [reflexivity | ].
  rewrite IH. reflexivity.
Qed.

Lemma reminders_from_patient rx uuid k pairs :
  Forall (fun r => mr_patient_name r = rx_patient rx) (reminders_from rx uuid k pairs).
Proof.
  revert k. induction pairs as [ | x pairs IH]; intros k; cbn [reminders_from].
  - constructor.
  - constructor; [reflexivity | apply IH].
Qed.

(** The loop over the timings of one medicine. *)
Lemma schedule_medicine_fold now uuid rx medicine timings s k :
  foldl (schedule_timing now uuid rx medicine) (s, k) timings
  = (foldl (_schedule_daily_reminder now) s
       (reminders_from rx uuid k (map (pair medicine) timings)),
     (k + length timings)%nat).
Proof.
  revert s k. induction timings as [ | t timings IH]; intros s k.
  - cbn. rewrite Nat.add_0_r. reflexivity.
  - cbn [foldl map reminders_from length]. unfold schedule_timing at 2.
    cbn [fst snd]. rewrite IH. f_equal. lia.
Qed.

(** The nested loops of [schedule_prescription_reminders] schedule the
    reminders of the (medicine, timing) pairs, one after the other. *)
Lemma schedule_prescription_fold now uuid rx s k :
  schedule_prescription_reminders now uuid (s, k) rx
  = (foldl (_schedule_daily_reminder now) s (prescription_reminders uuid k rx),
     (k + length (timing_pairs rx))%nat).
Proof.
  unfold schedule_prescription_reminders, prescription_reminders, timing_pairs.
  generalize (default [] (rx_Medicines rx)). intros medicines.
  revert s k. induction medicines as [ | medicine medicines IH]; intros s k.
  - cbn. rewrite Nat.add_0_r. reflexivity.
  - cbn [foldl flat_map]. unfold schedule_medicine at 2.
    rewrite schedule_medicine_fold, IH.
    rewrite reminders_from_app, foldl_app, length_app, !length_map.
    f_equal. lia.
Qed.

Lemma load_all_fold now uuid prescriptions s k :
  load_and_schedule_all_prescriptions now uuid prescriptions (s, k)
  = (foldl (_schedule_daily_reminder now) s (all_reminders uuid k prescriptions),
     (k + timings_total prescriptions)%nat).
Proof.
  unfold load_and_schedule_all_prescriptions, timings_total.
  revert s k. induction prescriptions as [ | rx rest IH]; intros s k.
  - cbn. rewrite Nat.add_0_r. reflexivity.
  - cbn [foldl all_reminders map list_sum].
    rewrite schedule_prescription_fold, IH, foldl_app. f_equal.
    unfold list_sum. cbn [fold_right]. lia.
Qed.

(** X4: scheduling a prescription adds one job and one cached reminder for
    each (medicine, timing) pair, in the order of the prescription: the
    jobs at the end of the job list, the reminders at the end of the
    patient's list, the lists of the other patients unchanged; a missing
    patient name files them under "Unknown Patient". Nothing is checked
    against what is already scheduled. *)
Theorem schedule_prescription_effect now uuid s k rx :
  let result := schedule_prescription_reminders now uuid (s, k) rx in
  let reminders := prescription_reminders uuid k rx in
  jobs (fst result) = (jobs s ++ map job_of reminders)%list /\
  cached (fst result) (rx_patient rx)
  = (cached s (rx_patient rx) ++ map (scheduled_of now) reminders)%list /\
  delete (rx_patient rx) (scheduled_reminders_cache (fst result))
  = delete (rx_patient rx) (scheduled_reminders_cache s) /\
  length reminders = length (timing_pairs rx) /\
  map (fun r => (mr_medicine_name r, mr_timing r)) reminders
  = map (fun entry => (default "Unknown Medicine" (med_Medicine (fst entry)), snd entry))
      (timing_pairs rx) /\
  snd result = (k + length (timing_pairs rx))%nat.
Proof.
  cbv zeta. rewrite schedule_prescription_fold. cbn [fst snd].
  split; [apply schedule_all_jobs | ].
  destruct (schedule_all_cache now (rx_patient rx)
              (prescription_reminders uuid k rx) s
              (reminders_from_patient rx uuid k _)) as [Hp Hd].
  split; [exact Hp | ]. split; [exact Hd | ].
  split; [apply reminders_from_length | ]. split; [ | reflexivity].
  clear Hp Hd.
  unfold prescription_reminders. generalize (timing_pairs rx). intros pairs.
  revert k. induction pairs as [ | x pairs IH]; intros k; cbn; [reflexivity | ].
  rewrite IH. reflexivity.
Qed.

(** ** States the scheduler reaches *)

Lemma consistent_schedule_daily now s reminder :
  consistent s -> consistent (_schedule_daily_reminder now s reminder).
Proof.
  intros (Hjobs & Hcache). split.
  - rewrite schedule_daily_jobs. apply Forall_app. split; [exact Hjobs | ].
    constructor; [ | constructor]. split; [reflexivity | ].
    apply parse_time_valid.
  - intros patient reminders. rewrite schedule_daily_cache.
    destruct (decide (mr_patient_name reminder = patient)) as [<- | Hne].
    + rewrite lookup_insert_eq. intros [= <-].
      apply Forall_app. split.
      * unfold cached.
        destruct (scheduled_reminders_cache s !! mr_patient_name reminder)
          as [l | ] eqn:Hl; [ | constructor].
        apply (Hcache _ _ Hl).
      * constructor; [ | constructor]. split; reflexivity.
    + rewrite lookup_insert_ne by exact Hne. apply Hcache.
Qed.

Lemma consistent_schedule_all now rs s :
  consistent s -> consistent (foldl (_schedule_daily_reminder now) s rs).
Proof.
  revert s. induction rs as [ | r rs IH]; intros s Hs; [exact Hs | ].
  cbn [foldl]. apply IH, consistent_schedule_daily, Hs.
Qed.

Lemma consistent_remove s patient :
  consistent s -> consistent (remove_patient_reminders s patient).
Proof.
  intros (Hjobs & Hcache). split.
  - cbn [remove_patient_reminders _save_scheduled_reminders_to_file jobs].
    rewrite List.Forall_forall in *. intros job Hin.
    apply filter_In in Hin as [Hin _]. apply Hjobs, Hin.
  - intros other reminders. cbn. intros Hlook.
    apply lookup_delete_Some in Hlook as [_ Hlook]. apply (Hcache _ _ Hlook).
Qed.

(** Scheduling writes the snapshot each time: after at least one reminder
    was scheduled the file is the cache. *)
Lemma schedule_all_written now rs s :
  written s \/ rs <> [] -> written (foldl (_schedule_daily_reminder now) s rs).
Proof.
  unfold written. intros [Hfile | Hrs].
  - apply schedule_all_file, Hfile.
  - destruct rs as [ | r rs]; [congruence | ]. cbn [foldl].
    apply schedule_all_file, schedule_daily_file.
Qed.

(** Scheduling a list of reminders leaves the snapshot written, or the
    list was empty and the state is as before. *)
Lemma schedule_all_state snapshot now rs s :
  written s \/ untouched snapshot s ->
  written (foldl (_schedule_daily_reminder now) s rs) \/
  untouched snapshot (foldl (_schedule_daily_reminder now) s rs).
Proof.
  intros [Hfile | Hnew].
  - left. apply schedule_all_written. left. exact Hfile.
  - destruct rs as [ | r rs]; [right; exact Hnew | ].
    left. apply schedule_all_written. right. discriminate.
Qed.

(** The listing of a patient is the cached list once the snapshot was
    written, and before that the list of the file that the earlier run
    left. *)
Lemma listing_by_state snapshot s patient :
  (written s -> get_patient_scheduled_reminders s patient = cached s patient) /\
  (untouched snapshot s ->
   get_patient_scheduled_reminders s patient = default [] (snapshot !! patient)).
Proof.
  unfold written, untouched, get_patient_scheduled_reminders, cached. split.
  - intros ->. destruct (scheduled_reminders_cache s !! patient); reflexivity.
  - intros (_ & -> & ->). rewrite lookup_empty. reflexivity.
Qed.

(** X5: in every state that a new scheduler reaches by starting, stopping,
    adding prescriptions and removing patients, each job is the one
    scheduling builds from its reminder and fires at a valid time of day
    (the parse of its timing), and a cached reminder is active and filed
    under its own patient's name. The snapshot file equals the cache as
    soon as a reminder was scheduled or a patient removed, and the
    listing of a patient is then the cached list; until then there is
    no job, the cache is empty, the file is the one that the earlier run
    left, and the listing of a patient is what that file holds. *)
Theorem reachable_consistent uuid snapshot svc :
  reachable uuid snapshot svc ->
  consistent (core svc) /\
  ((written (core svc) /\
    forall patient,
      get_patient_scheduled_reminders (core svc) patient
      = cached (core svc) patient) \/
   (untouched snapshot (core svc) /\
    forall patient,
      get_patient_scheduled_reminders (core svc) patient
      = default [] (snapshot !! patient))).
Proof.
  intros Hreach.
  assert (consistent (core svc) /\
          (written (core svc) \/ untouched snapshot (core svc))) as [Hcons Hstate].
  { induction Hreach as [ | now prescriptions svc _ [IH IHs] | svc _ [IH IHs]
                          | now rx svc _ [IH IHs] | patient svc _ [IH IHs]].
    - split; [split; [constructor | ] | right; repeat split].
      intros patient reminders. cbn. rewrite lookup_empty. discriminate.
    - unfold start_scheduler. destruct (is_running svc); [split; assumption | ].
      cbn [core]. rewrite load_all_fold. cbn [fst].
      split; [apply consistent_schedule_all, IH | apply schedule_all_state, IHs].
    - destruct IH as (_ & Hcache). split; [split; [constructor | exact Hcache] | ].
      destruct IHs as [Hfile | (_ & Hempty & Hfile)]; [left; exact Hfile | ].
      right. repeat split; assumption.
    - cbn [core]. unfold add_new_prescription_reminders.
      rewrite schedule_prescription_fold. cbn [fst].
      split; [apply consistent_schedule_all, IH | apply schedule_all_state, IHs].
    - cbn [core]. split; [apply consistent_remove, IH | left; reflexivity]. }
  split; [exact Hcons | ].
  destruct Hstate as [Hfile | Hnew]; [left | right];
    (split; [assumption | ]); intros patient;
    apply (listing_by_state snapshot (core svc) patient); assumption.
Qed.

(** A file that an earlier run left: it lists one reminder for Bob. *)
Lemma reachable_consistent_witness :
  let snapshot : gmap string (list ScheduledReminder) :=
    {["Bob" := [scheduled_of morning (reminder_of "Bob" "Ibuprofen" "9:00 PM")]]} in
  let fresh := start_scheduler morning sample_uuid [] (new_service snapshot) in
  let started := start_scheduler morning sample_uuid [sample_prescription]
                   (new_service snapshot) in
  (reachable sample_uuid snapshot fresh /\ reachable sample_uuid snapshot started) /\
  consistent (core started) /\
  length (get_patient_scheduled_reminders (core fresh) "Bob") = 1%nat /\
  get_patient_scheduled_reminders (core started) "Bob" = [].
Proof.
  cbv zeta.
  set (snapshot := {["Bob" := [scheduled_of morning
                                 (reminder_of "Bob" "Ibuprofen" "9:00 PM")]]}
                   : gmap string (list ScheduledReminder)).
  assert (reachable sample_uuid snapshot
            (start_scheduler morning sample_uuid [] (new_service snapshot)))
    as Hfresh by (apply reach_start, reach_new).
  assert (reachable sample_uuid snapshot
            (start_scheduler morning sample_uuid [sample_prescription]
               (new_service snapshot)))
    as Hstarted by (apply reach_start, reach_new).
  split; [split; assumption | ].
  destruct (reachable_consistent _ _ _ Hstarted) as [Hcons _].
  split; [exact Hcons | ].
  split; vm_compute; reflexivity.
Defined.

(** ** Listings *)

Lemma get_patient_cached s patient :
  active_reminders_file s = scheduled_reminders_cache s ->
  get_patient_scheduled_reminders s patient = cached s patient.
Proof.
  intros Hfile. unfold get_patient_scheduled_reminders, cached. rewrite Hfile.
  destruct (scheduled_reminders_cache s !! patient); reflexivity.
Qed.

(** X6: after a reminder is scheduled, the listing of its patient is the
    list the cache held for that patient followed by the new reminder;
    after a patient's reminders are removed, the listing of that patient
    is empty. After either, the listing of every patient is what the
    cache holds: the snapshot file, just rewritten, adds nothing. *)
Theorem listing_after_write now s reminder patient other :
  get_patient_scheduled_reminders (_schedule_daily_reminder now s reminder)
    (mr_patient_name reminder)
  = (cached s (mr_patient_name reminder) ++ [scheduled_of now reminder])%list /\
  get_patient_scheduled_reminders (remove_patient_reminders s patient) patient = [] /\
  get_patient_scheduled_reminders (_schedule_daily_reminder now s reminder) other
  = cached (_schedule_daily_reminder now s reminder) other /\
  get_patient_scheduled_reminders (remove_patient_reminders s patient) other
  = default [] (delete patient (scheduled_reminders_cache s) !! other).
Proof.
  split; [ | split; [ | split]].
  - rewrite get_patient_cached by apply schedule_daily_file.
    apply schedule_daily_cached.
  - rewrite get_patient_cached by reflexivity.
    unfold cached. cbn. rewrite lookup_delete_eq. reflexivity.
  - apply get_patient_cached, schedule_daily_file.
  - rewrite get_patient_cached by reflexivity. reflexivity.
Qed.

(** ** Restarting *)

Lemma schedule_daily_cached_length now s reminder patient :
  length (cached (_schedule_daily_reminder now s reminder) patient)
  = (length (cached s patient)
     + if String.eqb (mr_patient_name reminder) patient then 1 else 0)%nat.
Proof.
  destruct (String.eqb (mr_patient_name reminder) patient) eqn:Heq.
  - apply String.eqb_eq in Heq as <-.
    rewrite schedule_daily_cached, length_app. reflexivity.
  - apply String.eqb_neq in Heq. unfold cached.
    rewrite schedule_daily_cache, lookup_insert_ne by exact Heq. lia.
Qed.

Lemma schedule_all_cached_length now patient rs s :
  length (cached (foldl (_schedule_daily_reminder now) s rs) patient)
  = (length (cached s patient)
     + length (List.filter (fun r => String.eqb (mr_patient_name r) patient) rs))%nat.
Proof.
  revert s. induction rs as [ | r rs IH]; intros s; cbn [foldl List.filter].
  - cbn. lia.
  - rewrite IH, schedule_daily_cached_length.
    destruct (String.eqb (mr_patient_name r) patient); cbn [length]; lia.
Qed.

Lemma prescription_reminders_of patient uuid k rx :
  length (List.filter (fun r => String.eqb (mr_patient_name r) patient)
            (prescription_reminders uuid k rx))
  = if String.eqb (rx_patient rx) patient then length (timing_pairs rx) else O.
Proof.
  unfold prescription_reminders. generalize (timing_pairs rx). intros pairs.
  revert k. induction pairs as [ | x pairs IH]; intros k.
  - destruct (String.eqb _ _); reflexivity.
  - cbn [reminders_from List.filter reminder_for mr_patient_name].
    specialize (IH (S k)).
    destruct (String.eqb (rx_patient rx) patient); cbn [length]; rewrite IH;
      reflexivity.
Qed.

Lemma all_reminders_of patient uuid k prescriptions :
  length (List.filter (fun r => String.eqb (mr_patient_name r) patient)
            (all_reminders uuid k prescriptions))
  = timings_of patient prescriptions.
Proof.
  unfold timings_of.
  revert k. induction prescriptions as [ | rx rest IH]; intros k; [reflexivity | ].
  cbn [all_reminders map]. unfold list_sum. cbn [fold_right].
  rewrite List.filter_app, length_app, prescription_reminders_of, IH.
  reflexivity.
Qed.

Lemma all_reminders_length uuid k prescriptions :
  length (all_reminders uuid k prescriptions) = timings_total prescriptions.
Proof.
  unfold timings_total.
  revert k. induction prescriptions as [ | rx rest IH]; intros k; [reflexivity | ].
  cbn [all_reminders map]. unfold list_sum. cbn [fold_right].
  rewrite length_app, IH. unfold prescription_reminders.
  rewrite reminders_from_length. reflexivity.
Qed.

(** Starting a scheduler that does not run, in any state. *)
Lemma start_scheduler_effect snapshot uuid prescriptions patient now s k :
  written s \/ untouched snapshot s ->
  let svc := start_scheduler now uuid prescriptions
               {| is_running := false; core := s; uuids_drawn := k |} in
  is_running svc = true /\
  length (jobs (core svc)) = (length (jobs s) + timings_total prescriptions)%nat /\
  length (cached (core svc) patient)
  = (length (cached s patient) + timings_of patient prescriptions)%nat /\
  (timings_total prescriptions <> O -> written (core svc)) /\
  (timings_total prescriptions = O -> core svc = s).
Proof.
  intros Hstate. cbv zeta. unfold start_scheduler.
  cbn [is_running core uuids_drawn]. rewrite load_all_fold. cbn [fst snd].
  split; [reflexivity | ].
  rewrite schedule_all_jobs, length_app, length_map, all_reminders_length.
  split; [reflexivity | ].
  rewrite schedule_all_cached_length, all_reminders_of.
  split; [reflexivity | ].
  pose proof (all_reminders_length uuid k prescriptions) as Hlen.
  split; intros Htotal.
  - apply schedule_all_written. right. intros Hnil. rewrite Hnil in Hlen.
    cbn in Hlen. congruence.
  - rewrite Htotal in Hlen.
    destruct (all_reminders uuid k prescriptions); [reflexivity | discriminate].
Qed.

(** X7: a new scheduler started on some prescriptions holds one job for
    each timing, and lists for a patient one reminder for each of the
    patient's timings. Starting it again while it runs changes nothing.
    Stopping it drops every job and keeps the listings; starting it again
    loads the prescriptions again: the jobs are as many as after the
    first start, and each patient's listing is twice as long. When the
    prescriptions hold no timing at all, nothing is scheduled and the
    snapshot is never written: the listing of a patient is then what the
    file of the earlier run holds, before and after the restart. *)
Theorem restart_duplicates_listing snapshot now1 now2 uuid prescriptions patient :
  let started := start_scheduler now1 uuid prescriptions (new_service snapshot) in
  let restarted := start_scheduler now2 uuid prescriptions (stop_scheduler started) in
  length (jobs (core started)) = timings_total prescriptions /\
  start_scheduler now2 uuid prescriptions started = started /\
  jobs (core (stop_scheduler started)) = [] /\
  get_patient_scheduled_reminders (core (stop_scheduler started)) patient
  = get_patient_scheduled_reminders (core started) patient /\
  length (jobs (core restarted)) = timings_total prescriptions /\
  (timings_total prescriptions <> O ->
   length (get_patient_scheduled_reminders (core started) patient)
   = timings_of patient prescriptions /\
   length (get_patient_scheduled_reminders (core restarted) patient)
   = (2 * timings_of patient prescriptions)%nat) /\
  (timings_total prescriptions = O ->
   get_patient_scheduled_reminders (core started) patient
   = default [] (snapshot !! patient) /\
   get_patient_scheduled_reminders (core restarted) patient
   = default [] (snapshot !! patient)).
Proof.
  cbv zeta.
  assert (untouched snapshot (core (new_service snapshot))) as Hnew
    by (repeat split).
  destruct (start_scheduler_effect snapshot uuid prescriptions patient now1
              (core (new_service snapshot)) O (or_intror Hnew))
    as (Hrun1 & Hjobs1 & Hcached1 & Hwritten1 & Hsame1).
  change {| is_running := false; core := core (new_service snapshot);
            uuids_drawn := O |}
    with (new_service snapshot) in Hrun1, Hjobs1, Hcached1, Hwritten1, Hsame1.
  set (started := start_scheduler now1 uuid prescriptions (new_service snapshot)) in *.
  assert (written (core (stop_scheduler started)) \/
          untouched snapshot (core (stop_scheduler started))) as Hstate.
  { destruct (Nat.eq_dec (timings_total prescriptions) O) as [Hzero | Hpos].
    - right. unfold untouched.
      cbn [stop_scheduler core jobs scheduled_reminders_cache active_reminders_file].
      rewrite (Hsame1 Hzero). repeat split.
    - left. exact (Hwritten1 Hpos). }
  destruct (start_scheduler_effect snapshot uuid prescriptions patient now2
              (core (stop_scheduler started)) (uuids_drawn started) Hstate)
    as (_ & Hjobs2 & Hcached2 & Hwritten2 & Hsame2).
  change {| is_running := false; core := core (stop_scheduler started);
            uuids_drawn := uuids_drawn started |}
    with (stop_scheduler started) in Hjobs2, Hcached2, Hwritten2, Hsame2.
  split; [exact Hjobs1 | ].
  split; [unfold start_scheduler at 1; rewrite Hrun1; reflexivity | ].
  split; [reflexivity | ]. split; [reflexivity | ].
  split; [exact Hjobs2 | ].
  split; intros Htotal.
  - destruct (listing_by_state snapshot (core started) patient) as [-> _];
      [ | exact (Hwritten1 Htotal)].
    destruct (listing_by_state snapshot
                (core (start_scheduler now2 uuid prescriptions
                         (stop_scheduler started))) patient) as [-> _];
      [ | exact (Hwritten2 Htotal)].
    rewrite Hcached2.
    change (cached (core (stop_scheduler started)) patient)
      with (cached (core started) patient).
    rewrite Hcached1.
    change (length (cached (core (new_service snapshot)) patient)) with O.
    split; lia.
  - rewrite (Hsame2 Htotal).
    change (get_patient_scheduled_reminders (core (stop_scheduler started)) patient)
      with (get_patient_scheduled_reminders (core started) patient).
    rewrite (Hsame1 Htotal). split; reflexivity.
Qed.

(** An earlier run left a file that lists one reminder for Bob: started
    on a prescription for Alice the scheduler lists Alice's reminders
    once, and twice after a restart; started on no prescription it lists
    Bob's reminder of the earlier run. *)
Lemma restart_duplicates_listing_witness :
  let snapshot : gmap string (list ScheduledReminder) :=
    {["Bob" := [scheduled_of morning (reminder_of "Bob" "Ibuprofen" "9:00 PM")]]} in
  let started := start_scheduler morning sample_uuid [sample_prescription]
                   (new_service snapshot) in
  let restarted := start_scheduler morning sample_uuid [sample_prescription]
                     (stop_scheduler started) in
  (timings_total [sample_prescription] <> O /\ timings_total [] = O) /\
  length (get_patient_scheduled_reminders (core restarted) "Alice")
  = (2 * length (get_patient_scheduled_reminders (core started) "Alice"))%nat /\
  get_patient_scheduled_reminders
    (core (start_scheduler morning sample_uuid [] (new_service snapshot))) "Bob"
  = default [] (snapshot !! "Bob").
Proof.
  cbv zeta.
  set (snapshot := {["Bob" := [scheduled_of morning
                                 (reminder_of "Bob" "Ibuprofen" "9:00 PM")]]}
                   : gmap string (list ScheduledReminder)).
  assert (timings_total [sample_prescription] <> O) as Hsome
    by (vm_compute; discriminate).
  assert (timings_total [] = O) as Hnone by reflexivity.
  split; [split; assumption | ].
  destruct (restart_duplicates_listing snapshot morning morning sample_uuid
              [sample_prescription] "Alice") as (_ & _ & _ & _ & _ & Hlist & _).
  destruct (Hlist Hsome) as [-> ->].
  split; [reflexivity | ].
  destruct (restart_duplicates_listing snapshot morning morning sample_uuid
              [] "Bob") as (_ & _ & _ & _ & _ & _ & Hleft).
  destruct (Hleft Hnone) as [-> _]. reflexivity.
Defined.

(** The listing of all patients is the cache itself: a patient known only
    to the snapshot file is not in it. *)
Lemma get_all_scheduled_reminders_cache s :
  get_all_scheduled_reminders s = scheduled_reminders_cache s.
Proof.
  apply map_eq. intros patient. unfold get_all_scheduled_reminders.
  rewrite map_lookup_imap. unfold get_patient_scheduled_reminders.
  destruct (scheduled_reminders_cache s !! patient) as [reminders | ] eqn:Hp;
    reflexivity.
Qed.

(** ** Removal and the tags of the jobs *)

Lemma prefix_empty s : String.prefix EmptyString s = true.
Proof. destruct s; reflexivity. Qed.

Lemma append_cons c a b : String c a +:+ b = String c (a +:+ b).
Proof. reflexivity. Qed.

Lemma prefix_append x b : String.prefix x (x +:+ b) = true.
Proof.
  induction x as [ | c x IH]; [apply prefix_empty | ].
  rewrite append_cons. cbn [String.prefix].
  destruct (ascii_dec c c) as [_ | Hne]; [exact IH | congruence].
Qed.

Lemma contains_unfold sub s :
  contains sub s
  = String.prefix sub s
    || match s with EmptyString => false | String _ r => contains sub r end.
Proof. destruct s; reflexivity. Qed.

Lemma contains_append_r x a b : contains x b = true -> contains x (a +:+ b) = true.
Proof.
  intros Hb. induction a as [ | c a IH]; [exact Hb | ].
  change (contains x (String c a +:+ b))
    with (String.prefix x (String c a +:+ b) || contains x (a +:+ b)).
  rewrite IH. apply orb_true_r.
Qed.

Lemma contains_middle x a b : contains x (a +:+ x +:+ b) = true.
Proof.
  apply contains_append_r. rewrite contains_unfold, prefix_append. reflexivity.
Qed.

(** Replacing a character by a character works character by character. *)
Lemma replace_single a b s :
  replace (String a EmptyString) (String b EmptyString) s
  = map_chars (replace_char a b) s.
Proof.
  unfold replace. induction s as [ | c r IH]; [reflexivity | ].
  cbn [replace_go map_chars negb andb String.prefix String.length Nat.pred].
  unfold replace_char at 1. destruct (ascii_dec a c) as [<- | Hne].
  - rewrite prefix_empty, Ascii.eqb_refl. cbn. rewrite IH. reflexivity.
  - assert (Ascii.eqb c a = false) as -> by (apply Ascii.eqb_neq; congruence).
    rewrite IH. reflexivity.
Qed.

Lemma append_assoc (a b c : string) : (a +:+ b) +:+ c = a +:+ (b +:+ c).
Proof.
  induction a as [ | x a IH]; [reflexivity | ].
  rewrite !append_cons, IH. reflexivity.
Qed.

Lemma map_chars_append f a b :
  map_chars f (a +:+ b) = map_chars f a +:+ map_chars f b.
Proof.
  induction a as [ | c a IH]; [reflexivity | ].
  rewrite append_cons. cbn [map_chars]. rewrite append_cons, IH. reflexivity.
Qed.

Lemma repr_chars_append quote a b :
  repr_chars quote (a +:+ b) = repr_chars quote a +:+ repr_chars quote b.
Proof.
  induction a as [ | c a IH]; [reflexivity | ].
  rewrite append_cons. cbn [repr_chars]. rewrite IH, append_assoc. reflexivity.
Qed.

Lemma repr_char_plain quote c :
  plain_char c = true -> quote = "'"%char \/ quote = dquote ->
  repr_chars quote (String c EmptyString) = String c EmptyString.
Proof.
  intros Hc [-> | ->];
    destruct c as [[] [] [] [] [] [] [] []]; vm_compute in Hc |- *;
    congruence.
Qed.

Lemma repr_chars_plain quote s :
  plain s = true -> quote = "'"%char \/ quote = dquote ->
  repr_chars quote s = s.
Proof.
  intros Hs Hq. induction s as [ | c s IH]; [reflexivity | ].
  cbn [plain all_chars] in Hs. apply andb_prop in Hs as [Hc Hs].
  change (String c s) with (String c EmptyString +:+ s).
  rewrite repr_chars_append, (repr_char_plain quote c Hc Hq), (IH Hs).
  reflexivity.
Qed.

Lemma plain_replace_blank s :
  plain s = true -> plain (map_chars (replace_char " " "_") s) = true.
Proof.
  induction s as [ | c s IH]; [reflexivity | ].
  cbn [plain all_chars map_chars]. intros Hs.
  apply andb_prop in Hs as [Hc Hs]. fold (plain s) in Hs.
  apply andb_true_intro. split; [ | apply IH, Hs].
  unfold replace_char. destruct (Ascii.eqb c " "); [reflexivity | exact Hc].
Qed.

(** The job scheduled for a reminder is found by the name of its
    patient, when [repr] leaves the name as it is. *)
Lemma job_matches_own reminder :
  plain (mr_patient_name reminder) = true ->
  job_matches (mr_patient_name reminder) (job_of reminder) = true.
Proof.
  intros Hplain. unfold job_matches, str_tags, job_of, job_id_of, repr.
  cbn [job_tag]. rewrite !replace_single, map_chars_append.
  set (name := map_chars (replace_char " " "_") (mr_patient_name reminder)).
  set (rest := map_chars (replace_char " " "_")
                 ("_" +:+ mr_medicine_name reminder +:+ "_" +:+ mr_timing reminder)).
  set (quote := if contains "'" (name +:+ rest)
                   && negb (contains (String dquote "") (name +:+ rest))
                then dquote else "'"%char).
  assert (quote = "'"%char \/ quote = dquote) as Hquote
    by (unfold quote; destruct (_ && _); auto).
  rewrite repr_chars_append.
  rewrite (repr_chars_plain quote name (plain_replace_blank _ Hplain) Hquote).
  match goal with
  | |- contains name ?text = true =>
      replace text
        with (("{" +:+ String quote EmptyString) +:+ name
              +:+ (repr_chars quote rest +:+ String quote EmptyString +:+ "}"))
  end.
  2: { rewrite !append_cons, !append_assoc. reflexivity. }
  apply contains_middle.
Qed.

(** X8: when every job is as scheduling builds it, removing the reminders
    of a patient whose name has only printable characters, none of them a
    quote or a backslash, cancels every job of that patient. *)
Theorem remove_cancels_patient_jobs s patient :
  Forall well_formed_job (jobs s) -> plain patient = true ->
  Forall (fun job => mr_patient_name (job_reminder job) <> patient)
    (jobs (remove_patient_reminders s patient)).
Proof.
  intros Hjobs Hplain. rewrite List.Forall_forall in *. intros job Hin.
  cbn [remove_patient_reminders _save_scheduled_reminders_to_file jobs] in Hin.
  apply filter_In in Hin as [Hin Hno]. intros Hname.
  rewrite (Hjobs job Hin), <- Hname in Hno.
  rewrite job_matches_own in Hno; [discriminate | ].
  rewrite Hname. exact Hplain.
Qed.

Lemma remove_cancels_patient_jobs_witness :
  let s := core (start_scheduler morning sample_uuid [sample_prescription]
                   (new_service ∅)) in
  (Forall well_formed_job (jobs s) /\ plain "Alice" = true) /\
  Forall (fun job => mr_patient_name (job_reminder job) <> "Alice")
    (jobs (remove_patient_reminders s "Alice")).
Proof.
  cbv zeta.
  assert (Forall well_formed_job
            (jobs (core (start_scheduler morning sample_uuid [sample_prescription]
                           (new_service ∅))))) as Hjobs
    by (repeat constructor).
  split; [split; [exact Hjobs | reflexivity] | ].
  exact (remove_cancels_patient_jobs _ "Alice" Hjobs eq_refl).
Defined.

Lemma filter_negb_length {A} (f : A -> bool) (l : list A) :
  (length (List.filter f l) + length (List.filter (fun x => negb (f x)) l))%nat
  = length l.
Proof.
  induction l as [ | x l IH]; [reflexivity | ].
  cbn [List.filter]. destruct (f x); cbn [negb length]; lia.
Qed.

Lemma filter_filter_negb {A} (f : A -> bool) (l : list A) :
  List.filter f (List.filter (fun x => negb (f x)) l) = [].
Proof.
  induction l as [ | x l IH]; [reflexivity | ].
  cbn [List.filter]. destruct (f x) eqn:Hx; cbn [negb]; [exact IH | ].
  cbn [List.filter]. rewrite Hx. exact IH.
Qed.

(** X9: the legacy listing of a patient's jobs and the removal select the
    same jobs: the jobs listed for a name and the jobs left after removing
    that name make up the job list, and after the removal the listing for
    the name is empty. Without a name, or with the empty name, every job
    is listed. *)
Theorem legacy_listing_and_removal s name :
  name <> "" ->
  (length (get_scheduled_reminders s (Some name))
   + length (jobs (remove_patient_reminders s name)))%nat = length (jobs s) /\
  get_scheduled_reminders (remove_patient_reminders s name) (Some name) = [] /\
  get_scheduled_reminders s None = jobs s /\
  get_scheduled_reminders s (Some "") = jobs s.
Proof.
  intros Hname. apply String.eqb_neq in Hname.
  unfold get_scheduled_reminders. rewrite Hname.
  cbn [remove_patient_reminders _save_scheduled_reminders_to_file jobs String.eqb].
  split; [apply filter_negb_length | ].
  split; [apply (filter_filter_negb (job_matches name)) | ].
  assert (forall l : list Job, List.filter (fun _ => true) l = l) as Hall.
  { induction l as [ | x l IH]; [reflexivity | ]. cbn. rewrite IH. reflexivity. }
  split; apply Hall.
Qed.

Lemma legacy_listing_and_removal_witness :
  let s := core (start_scheduler morning sample_uuid [sample_prescription]
                   (new_service ∅)) in
  "Alice" <> "" /\
  get_scheduled_reminders (remove_patient_reminders s "Alice") (Some "Alice") = [].
Proof.
  cbv zeta. split; [discriminate | ].
  apply (legacy_listing_and_removal _ "Alice"). discriminate.
Defined.

(** ** Querying the history *)

Lemma slice_last_keeps_new {A} n (l : list A) x :
  exists kept, slice_last (S n) (l ++ [x]) = (kept ++ [x])%list /\
               (length kept <= length l)%nat.
Proof.
  exists (drop (length (l ++ [x]) - S n) l). unfold slice_last. split.
  - apply drop_app_le. rewrite length_app. cbn [length]. lia.
  - rewrite length_drop. lia.
Qed.

(** The cutoff of a query over the last [days] days. *)
Lemma sub_days_value now days :
  wf now -> 1 <= days < day now ->
  sub_days now days = Some {| day := day now - days; usec := usec now |}.
Proof.
  intros [[Hmin Hmax] _] Hdays.
  unfold sub_days, add_days, max_timedelta_days, max_ordinal in *.
  assert ((Z.abs days <=? 999999999) = true) as -> by lia.
  replace (day now + - days) with (day now - days) by lia.
  assert ((1 <=? day now - days) && (day now - days <=? 3652059) = true) as ->
    by (apply andb_true_intro; split; lia).
  reflexivity.
Qed.

(** The answer of a query holds entries of the file only. *)
Lemma get_reminder_history_from_file files now patient days :
  Forall (fun record => In record (history_of files (history_path patient)))
    (get_reminder_history files now patient days).
Proof.
  unfold get_reminder_history, get_reminder_history_try, history_of.
  destruct (files !! history_path patient) as [[history | ] | ];
    cbn; try constructor.
  destruct (sub_days now days) as [cutoff | ]; cbn; [ | constructor].
  apply List.Forall_forall. intros r Hin. apply filter_In in Hin as [Hin _].
  exact Hin.
Qed.

(** X10: a record stored at the instant [now], in a history file that can
    be opened for writing and, if it exists, decodes, is the last entry
    of the history queried at that instant for the same patient over the
    last [days] days (one day at least, and not reaching before the first
    day of the calendar), and the answer then has at most 100 entries.
    When the file cannot be written or does not decode, nothing is
    stored. In both cases the answer holds entries of the file only. *)
Theorem history_query_after_record can_write files now reminder success
    preferences via days :
  wf now -> 1 <= days < day now ->
  let path := history_path (mr_patient_name reminder) in
  let stored :=
    _store_reminder_history can_write files now reminder success preferences via in
  let answer := get_reminder_history stored now (mr_patient_name reminder) days in
  (can_write path = true -> decodes files path ->
   last answer = Some (make_history_record now reminder success via) /\
   (length answer <= 100)%nat) /\
  (can_write path = false \/ ~ decodes files path -> stored = files) /\
  Forall (fun record => In record (history_of stored path)) answer.
Proof.
  intros Hwf Hdays. cbv zeta.
  split; [ | split].
  - intros Hwrite Hdec.
    rewrite store_reminder_history_written by assumption.
    unfold get_reminder_history, get_reminder_history_try.
    rewrite lookup_insert_eq, (sub_days_value now days Hwf Hdays).
    cbn [load_history mbind option_bind from_option id].
    set (history := history_of files (history_path (mr_patient_name reminder))).
    set (record := make_history_record now reminder success via).
    destruct (slice_last_keeps_new 99 history record) as (kept & Hkept & _).
    split.
    + rewrite Hkept, List.filter_app. cbn [List.filter].
      assert (ltb {| day := day now - days; usec := usec now |} (hr_timestamp record)
              = true) as ->.
      { unfold ltb, record. cbn [day usec hr_timestamp make_history_record].
        apply orb_true_intro. left. lia. }
      apply last_snoc.
    + pose proof (slice_last_length 100 (history ++ [record])) as Hlen.
      pose proof (List.filter_length_le
                    (fun r => ltb {| day := day now - days; usec := usec now |}
                                (hr_timestamp r))
                    (slice_last 100 (history ++ [record]))) as Hfil.
      lia.
  - apply store_reminder_history_failed.
  - apply get_reminder_history_from_file.
Qed.

(** In a directory without sub-directories: the record for Alice is the
    last entry of her history; for a patient named "A/B" the file cannot
    be written and the history stays empty. *)
Lemma history_query_after_record_witness :
  (wf morning /\ 1 <= 7 < day morning) /\
  last (get_reminder_history
          (_store_reminder_history flat_directory ∅ morning
             (reminder_of "Alice" "Amoxicillin" "8:00 AM")
             true DEFAULT_PREFERENCES ["push"])
          morning "Alice" 7)
  = Some (make_history_record morning (reminder_of "Alice" "Amoxicillin" "8:00 AM")
            true ["push"]) /\
  _store_reminder_history flat_directory ∅ morning
    (reminder_of "A/B" "Amoxicillin" "8:00 AM") true DEFAULT_PREFERENCES ["push"]
  = ∅.
Proof.
  assert (wf morning) as Hwf
    by (unfold wf, morning, max_ordinal, usec_per_day; cbn; lia).
  assert (1 <= 7 < day morning) as Hdays by (unfold morning; cbn; lia).
  split; [split; assumption | ]. split.
  - destruct (history_query_after_record flat_directory ∅ morning
                (reminder_of "Alice" "Amoxicillin" "8:00 AM") true
                DEFAULT_PREFERENCES ["push"] 7 Hwf Hdays) as (Hlast & _ & _).
    apply Hlast.
    + vm_compute. reflexivity.
    + unfold decodes. rewrite lookup_empty. discriminate.
  - destruct (history_query_after_record flat_directory ∅ morning
                (reminder_of "A/B" "Amoxicillin" "8:00 AM") true
                DEFAULT_PREFERENCES ["push"] 7 Hwf Hdays) as (_ & Hfail & _).
    apply Hfail. left. vm_compute. reflexivity.
Defined.

(** ** A patient without preferences or device *)

Lemma default_flags :
  truthy (dict_get DEFAULT_PREFERENCES "push_notifications" (VBool true)) = true /\
  truthy (dict_get DEFAULT_PREFERENCES "email_notifications" (VBool false)) = false /\
  truthy (dict_get DEFAULT_PREFERENCES "sms_notifications" (VBool false)) = false /\
  truthy (dict_get DEFAULT_PREFERENCES "whatsapp_notifications" (VBool false)) = false.
Proof. by_computation. Qed.

(** X11: for a patient with no stored preferences and no registered
    device token, a firing attempts the push channel only, the push
    delivery answers failure whatever the gateway would do, and nothing is
    written: the history stays as it was. *)
Theorem firing_without_device firebase_app token_files send_batch others now w reminder :
  preference_files w !! preferences_path (mr_patient_name reminder) = None ->
  get_user_device_tokens token_files (mr_patient_name reminder) = [] ->
  let sender := sender_with_push firebase_app token_files send_batch others in
  let result := _send_medicine_reminder sender now w reminder in
  map call_channel (calls (snd result)) = [Push] /\
  sent_via (snd result) = [] /\
  fst result = w.
Proof.
  intros Hprefs Htokens. cbv zeta.
  unfold _send_medicine_reminder, get_user_preferences. rewrite Hprefs.
  destruct default_flags as (Hpush & Hmail & Hsms & Hwa).
  unfold send_all. rewrite Hpush, Hmail, Hsms, Hwa.
  cbn [sender_with_push send_push_notification].
  unfold send_push_notification_of. rewrite Htokens.
  destruct (negb firebase_app); cbn; repeat split.
Qed.

Lemma firing_without_device_witness :
  let reminder := reminder_of "Alice" "Amoxicillin" "8:00 AM" in
  (preference_files (world_of empty_scheduler) !! preferences_path "Alice" = None /\
   get_user_device_tokens ∅ "Alice" = []) /\
  fst (_send_medicine_reminder
         (sender_with_push true ∅ (fun _ _ _ => Some 1%nat) (sender_const true))
         morning (world_of empty_scheduler) reminder)
  = world_of empty_scheduler.
Proof.
  cbv zeta. split; [split; reflexivity | ].
  apply (firing_without_device true ∅ (fun _ _ _ => Some 1%nat) (sender_const true)
           morning (world_of empty_scheduler)
           (reminder_of "Alice" "Amoxicillin" "8:00 AM")); reflexivity.
Defined.

(** ** Preferences and profiles: reading back what was written *)

(** A map that already has the keys of another absorbs it. *)
Lemma union_absorb {V} (m d : gmap string V) : dom d ⊆ dom m -> m ∪ d = m.
Proof.
  intros Hdom. apply map_eq. intros k. rewrite lookup_union.
  destruct (m !! k) as [v | ] eqn:Hm; destruct (d !! k) as [w | ] eqn:Hd;
    try reflexivity.
  exfalso. assert (k ∈ dom m) as Hin by (apply Hdom, elem_of_dom; eauto).
  apply elem_of_dom in Hin as [v Hv]. congruence.
Qed.

Lemma get_user_preferences_dom files patient :
  dom DEFAULT_PREFERENCES ⊆ dom (get_user_preferences files patient).
Proof.
  unfold get_user_preferences, dict_update.
  destruct (files !! preferences_path patient) as [[stored | ] | ];
    [ | reflexivity | reflexivity].
  rewrite dom_union_L. apply union_subseteq_r.
Qed.

Lemma dict_update_dom {V} (d other : gmap string V) :
  dom d ⊆ dom (dict_update d other).
Proof. unfold dict_update. rewrite dom_union_L. apply union_subseteq_r. Qed.

Lemma insert_dom_subseteq {V} (m : gmap string V) k v : dom m ⊆ dom (<[k := v]> m).
Proof. rewrite dom_insert_L. apply union_subseteq_r. Qed.

Lemma update_preferences_get files stamp patient preferences :
  get_user_preferences (update_user_preferences files stamp patient preferences) patient
  = <["updated_at" := VStr stamp]>
      (dict_update (get_user_preferences files patient) preferences).
Proof.
  unfold update_user_preferences. unfold get_user_preferences at 1.
  rewrite lookup_insert_eq. unfold dict_update at 1. apply union_absorb.
  etransitivity; [apply get_user_preferences_dom | ].
  etransitivity; [apply dict_update_dom | apply insert_dom_subseteq].
Qed.


(** X13: two updates in a row are one update by the second set of
    preferences laid over the first. *)
Theorem update_preferences_twice files stamp1 stamp2 patient first second :
  update_user_preferences
    (update_user_preferences files stamp1 patient first) stamp2 patient second
  = update_user_preferences files stamp2 patient (dict_update first second).
Proof.
  unfold update_user_preferences at 1. rewrite update_preferences_get.
  unfold update_user_preferences. rewrite insert_insert_eq. f_equal. f_equal.
  apply map_eq. intros key.
  destruct (String.eqb key "updated_at") eqn:Hkey.
  - apply String.eqb_eq in Hkey as ->. rewrite !lookup_insert_eq. reflexivity.
  - apply String.eqb_neq in Hkey.
    rewrite !lookup_insert_ne by congruence.
    rewrite !dict_update_lookup, lookup_insert_ne by congruence.
    rewrite !dict_update_lookup.
    destruct (second !! key), (first !! key); reflexivity.
Qed.





(** ** Device tokens *)




(** Taking a token out of a list that holds it once. *)
Lemma list_mem_cons x y l : list_mem x (y :: l) = String.eqb x y || list_mem x l.
Proof. reflexivity. Qed.











(** ** Deleting a user's data *)

Lemma map_chars_compose f g s :
  map_chars f (map_chars g s) = map_chars (fun c => f (g c)) s.
Proof.
  induction s as [ | c s IH]; [reflexivity | ].
  cbn [map_chars]. rewrite IH. reflexivity.
Qed.

Lemma sanitize_filename_chars name :
  sanitize_filename name = map_chars sanitize_char name.
Proof.
  unfold sanitize_filename, lower.
  rewrite !replace_single, !map_chars_compose. reflexivity.
Qed.

Lemma sanitize_char_fixed c :
  Ascii.eqb (replace_char " " "_" c) (sanitize_char c) = sanitized_char c.
Proof. destruct c as [[] [] [] [] [] [] [] []]; reflexivity. Qed.

(** The name under which the scheduler keeps a history and the name that
    [delete_user_data] looks for are the same exactly when the patient's
    name has no capital letter, slash or backslash. *)
Lemma history_path_sanitized name :
  history_path name = sanitize_filename name +:+ "_history.json"
  <-> all_chars sanitized_char name = true.
Proof.
  unfold history_path. rewrite replace_single, sanitize_filename_chars.
  induction name as [ | c name IH]; [split; reflexivity | ].
  cbn [map_chars all_chars]. rewrite !append_cons, andb_true_iff, <- IH.
  rewrite <- sanitize_char_fixed. split.
  - intros [= Hc Hrest]. split; [ | exact Hrest].
    rewrite Hc. apply Ascii.eqb_refl.
  - intros [Hc Hrest]. apply Ascii.eqb_eq in Hc. rewrite Hc, Hrest. reflexivity.
Qed.

(** X17: after [delete_user_data] the patient's preferences read as the
    defaults, the profile as the default profile under the patient's name
    and the device tokens as none. For a patient's name of ASCII
    characters, the reminder history that the scheduler keeps for the
    patient is deleted only when the name has no capital letter, slash or
    backslash (file names being compared exactly); for any other such
    name it stays, and the history query answers as before. *)
Theorem delete_user_data_effect {N} (st : store N) patient now days :
  let after := delete_user_data st patient in
  get_user_preferences (preferences_dir after) patient = DEFAULT_PREFERENCES /\
  get_user_profile (profiles_dir after) patient
  = <["name" := VStr patient]> DEFAULT_PROFILE /\
  get_user_device_tokens (device_tokens_dir after) patient = [] /\
  (ascii_text patient = true ->
   reminder_history_dir after !! history_path patient
   = (if all_chars sanitized_char patient then None
      else reminder_history_dir st !! history_path patient) /\
   get_reminder_history (reminder_history_dir after) now patient days
   = (if all_chars sanitized_char patient then []
      else get_reminder_history (reminder_history_dir st) now patient days)).
Proof.
  cbv zeta. unfold delete_user_data.
  cbn [preferences_dir profiles_dir device_tokens_dir reminder_history_dir].
  split; [ | split; [ | split]].
  - unfold get_user_preferences, preferences_path. rewrite lookup_delete_eq.
    reflexivity.
  - unfold get_user_profile, profile_path. rewrite lookup_delete_eq. reflexivity.
  - unfold get_user_device_tokens, tokens_path. rewrite lookup_delete_eq.
    reflexivity.
  - intros _.
    assert (delete (sanitize_filename patient +:+ "_history.json")
              (reminder_history_dir st) !! history_path patient
            = if all_chars sanitized_char patient then None
              else reminder_history_dir st !! history_path patient) as Hlook.
    { destruct (all_chars sanitized_char patient) eqn:Hname.
      - apply history_path_sanitized in Hname. rewrite <- Hname.
        apply lookup_delete_eq.
      - apply lookup_delete_ne. intros Heq. symmetry in Heq.
        apply history_path_sanitized in Heq. congruence. }
    split; [exact Hlook | ].
    unfold get_reminder_history, get_reminder_history_try. rewrite Hlook.
    destruct (all_chars sanitized_char patient); reflexivity.
Qed.

(** Two histories are kept, for "Alice" and for "bob"; deleting the data
    of each leaves the history of Alice and removes the history of bob. *)
Lemma delete_user_data_effect_witness :
  let st : store unit :=
    {| preferences_dir := ∅; profiles_dir := ∅; device_tokens_dir := ∅;
       reminder_history_dir :=
         <[history_path "Alice" := HistoryList []]>
           (<[history_path "bob" := HistoryList []]> ∅);
       notifications_dir := ∅; backups_dir := ∅ |} in
  (ascii_text "Alice" = true /\ ascii_text "bob" = true) /\
  reminder_history_dir (delete_user_data st "Alice") !! history_path "Alice"
  = Some (HistoryList []) /\
  reminder_history_dir (delete_user_data st "bob") !! history_path "bob" = None.
Proof.
  cbv zeta.
  set (st := {| preferences_dir := ∅; profiles_dir := ∅; device_tokens_dir := ∅;
                reminder_history_dir :=
                  <[history_path "Alice" := HistoryList []]>
                    (<[history_path "bob" := HistoryList []]> ∅);
                notifications_dir := ∅; backups_dir := ∅ |} : store unit).
  assert (ascii_text "Alice" = true) as Halice by reflexivity.
  assert (ascii_text "bob" = true) as Hbob by reflexivity.
  split; [split; assumption | ]. split.
  - destruct (delete_user_data_effect st "Alice" morning 7) as (_ & _ & _ & Hhist).
    destruct (Hhist Halice) as [-> _]. vm_compute. reflexivity.
  - destruct (delete_user_data_effect st "bob" morning 7) as (_ & _ & _ & Hhist).
    destruct (Hhist Hbob) as [-> _]. vm_compute. reflexivity.
Defined.

(** ** Backup and restore *)




(** ** Validation of preferences *)

Lemma validate_bool_lookup preferences validated key k :
  validate_bool preferences validated key !! k
  = if String.eqb key k
    then match preferences !! key with
         | Some v => Some (VBool (truthy v))
         | None => validated !! k
         end
    else validated !! k.
Proof.
  unfold validate_bool. destruct (String.eqb key k) eqn:Hk.
  - apply String.eqb_eq in Hk as <-.
    destruct (preferences !! key); [apply lookup_insert_eq | reflexivity].
  - apply String.eqb_neq in Hk.
    destruct (preferences !! key); [apply lookup_insert_ne, Hk | reflexivity].
Qed.

Lemma validate_string_lookup preferences validated key k :
  validate_string preferences validated key !! k
  = if String.eqb key k
    then match preferences !! key with
         | Some (VStr s) => Some (VStr (strip s))
         | _ => validated !! k
         end
    else validated !! k.
Proof.
  unfold validate_string. destruct (String.eqb key k) eqn:Hk.
  - apply String.eqb_eq in Hk as <-.
    destruct (preferences !! key) as [[] | ]; try reflexivity.
    apply lookup_insert_eq.
  - apply String.eqb_neq in Hk.
    destruct (preferences !! key) as [[] | ]; try reflexivity.
    apply lookup_insert_ne, Hk.
Qed.

(** A loop of validation changes the keys it runs over, and only them. *)
Lemma foldl_validate_string_lookup preferences keys validated k :
  foldl (validate_string preferences) validated keys !! k
  = if list_mem k keys
    then match preferences !! k with
         | Some (VStr s) => Some (VStr (strip s))
         | _ => validated !! k
         end
    else validated !! k.
Proof.
  revert validated. induction keys as [ | key keys IH]; intros validated;
    [reflexivity | ].
  cbn [foldl]. rewrite IH, list_mem_cons, validate_string_lookup, (String.eqb_sym k key).
  destruct (String.eqb key k) eqn:Hkey; cbn [orb].
  - apply String.eqb_eq in Hkey as ->.
    destruct (list_mem k keys); destruct (preferences !! k) as [[] | ]; reflexivity.
  - reflexivity.
Qed.

Lemma foldl_validate_bool_lookup preferences keys validated k :
  foldl (validate_bool preferences) validated keys !! k
  = if list_mem k keys
    then match preferences !! k with
         | Some v => Some (VBool (truthy v))
         | None => validated !! k
         end
    else validated !! k.
Proof.
  revert validated. induction keys as [ | key keys IH]; intros validated;
    [reflexivity | ].
  cbn [foldl]. rewrite IH, list_mem_cons, validate_bool_lookup, (String.eqb_sym k key).
  destruct (String.eqb key k) eqn:Hkey; cbn [orb].
  - apply String.eqb_eq in Hkey as ->.
    destruct (list_mem k keys); destruct (preferences !! k); reflexivity.
  - reflexivity.
Qed.

Lemma settings_contact preferences :
  settings preferences !! "email" = Some (VStr (given_text preferences "email")) /\
  settings preferences !! "phone" = Some (VStr (given_text preferences "phone")) /\
  settings preferences !! "whatsapp" = Some (VStr (given_text preferences "whatsapp")).
Proof.
  destruct default_preferences_values as (_ & _ & _ & _ & Hemail & Hphone & Hwa).
  unfold settings, given_text.
  rewrite !foldl_validate_string_lookup, !foldl_validate_bool_lookup.
  change (list_mem "email" string_keys) with true.
  change (list_mem "phone" string_keys) with true.
  change (list_mem "whatsapp" string_keys) with true.
  change (list_mem "email" bool_keys) with false.
  change (list_mem "phone" bool_keys) with false.
  change (list_mem "whatsapp" bool_keys) with false.
  rewrite Hemail, Hphone, Hwa.
  repeat split;
    match goal with
    | |- context [preferences !! ?k] => destruct (preferences !! k) as [[] | ]
    end; reflexivity.
Qed.

Lemma default_key key :
  In key (bool_keys ++ string_keys) -> key ∈ dom DEFAULT_PREFERENCES.
Proof.
  intros Hin. apply elem_of_dom.
  repeat (destruct Hin as [<- | Hin]; [vm_compute; eauto | ]).
  destruct Hin.
Qed.

Lemma insert_known_key {V} (m d : gmap string V) key v :
  dom m = dom d -> key ∈ dom d -> dom (<[key := v]> m) = dom d.
Proof.
  intros Hm Hkey. rewrite dom_insert_L, Hm.
  apply subseteq_union_1_L, singleton_subseteq_l, Hkey.
Qed.

Lemma foldl_keeps_dom (step : gmap string pyval -> string -> gmap string pyval) keys :
  (forall v key, In key keys -> dom v = dom DEFAULT_PREFERENCES ->
                 dom (step v key) = dom DEFAULT_PREFERENCES) ->
  forall v, dom v = dom DEFAULT_PREFERENCES ->
            dom (foldl step v keys) = dom DEFAULT_PREFERENCES.
Proof.
  induction keys as [ | key keys IH]; intros Hstep v Hv; [exact Hv | ].
  cbn [foldl]. apply IH.
  - intros v' key' Hin. apply Hstep. right. exact Hin.
  - apply Hstep; [left; reflexivity | exact Hv].
Qed.

Lemma settings_dom preferences :
  dom (settings preferences) = dom DEFAULT_PREFERENCES.
Proof.
  unfold settings. apply foldl_keeps_dom.
  - intros v key Hin Hv. unfold validate_string.
    destruct (preferences !! key) as [[] | ]; try exact Hv.
    apply insert_known_key; [exact Hv | ].
    apply default_key, in_or_app. right. exact Hin.
  - apply foldl_keeps_dom; [ | reflexivity].
    intros v key Hin Hv. unfold validate_bool.
    destruct (preferences !! key); [ | exact Hv].
    apply insert_known_key; [exact Hv | ].
    apply default_key, in_or_app. left. exact Hin.
Qed.

Lemma all_chars_filter f s : all_chars f (filter_chars f s) = true.
Proof.
  induction s as [ | c s IH]; [reflexivity | ].
  cbn [filter_chars]. destruct (f c) eqn:Hc; [ | exact IH].
  cbn [all_chars]. rewrite Hc, IH. reflexivity.
Qed.

(** The check of one phone field, once [re] is bound. *)
Lemma validate_phone_bound validated field p :
  validated !! field = Some (VStr p) ->
  exists q, validate_phone true (Some validated) field
            = Some (<[field := VStr q]> validated) /\ clean_phone q = true.
Proof.
  intros Hfield. unfold validate_phone. cbn [mbind option_bind].
  rewrite Hfield. cbn [mbind option_bind truthy].
  destruct (String.eqb p "") eqn:Hp; cbn [negb].
  - apply String.eqb_eq in Hp as ->. exists "". split; [ | reflexivity].
    rewrite insert_id by exact Hfield. reflexivity.
  - destruct (negb _ && _) eqn:Hok.
    + exists (phone_digits p). split; [reflexivity | ].
      apply andb_prop in Hok as [_ Hstart]. unfold clean_phone.
      unfold phone_digits at 2. rewrite all_chars_filter, Hstart.
      apply orb_true_r.
    + exists "". split; reflexivity.
Qed.

Lemma validate_phone_unbound validated field p :
  validated !! field = Some (VStr p) ->
  validate_phone false (Some validated) field
  = if String.eqb p "" then Some validated else None.
Proof.
  intros Hfield. unfold validate_phone. cbn [mbind option_bind].
  rewrite Hfield. cbn [mbind option_bind truthy].
  destruct (String.eqb p ""); reflexivity.
Qed.

Lemma validate_email_settings preferences :
  validate_email (settings preferences)
  = if String.eqb (given_text preferences "email") "" then
      Some (settings preferences, false)
    else if email_pattern_match (given_text preferences "email") then
      Some (settings preferences, true)
    else Some (<["email" := VStr ""]> (settings preferences), true).
Proof.
  destruct (settings_contact preferences) as (Hemail & _ & _).
  unfold validate_email. rewrite Hemail. cbn [mbind option_bind truthy].
  destruct (String.eqb (given_text preferences "email") ""); reflexivity.
Qed.

Lemma validate_try_unfold preferences :
  validate_user_preferences_try preferences
  = match validate_email (settings preferences) with
    | Some (validated, re_bound) =>
        validate_phone re_bound
          (validate_phone re_bound (Some validated) "phone") "whatsapp"
    | None => None
    end.
Proof.
  unfold validate_user_preferences_try. fold (settings preferences).
  destruct (validate_email (settings preferences)) as [[validated re_bound] | ];
    reflexivity.
Qed.

(** Without a usable email [re] is not bound: validation gets through
    only when no number is given. *)
Lemma validate_try_no_email preferences :
  given_text preferences "email" = "" ->
  validate_user_preferences_try preferences
  = if String.eqb (given_text preferences "phone") ""
       && String.eqb (given_text preferences "whatsapp") ""
    then Some (settings preferences) else None.
Proof.
  intros He. destruct (settings_contact preferences) as (_ & Hphone & Hwa).
  rewrite validate_try_unfold, validate_email_settings, He. cbn [String.eqb].
  rewrite (validate_phone_unbound _ _ _ Hphone).
  destruct (String.eqb (given_text preferences "phone") ""); cbn [andb];
    [ | reflexivity].
  apply (validate_phone_unbound _ _ _ Hwa).
Qed.

(** What validation answers when no exception is raised. *)
Lemma validate_success preferences result :
  validate_user_preferences_try preferences = Some result ->
  exists e q1 q2,
    result = <["whatsapp" := VStr q2]>
               (<["phone" := VStr q1]> (<["email" := VStr e]> (settings preferences))) /\
    (e = "" \/ email_pattern_match e = true) /\
    clean_phone q1 = true /\ clean_phone q2 = true.
Proof.
  destruct (settings_contact preferences) as (Hemail & Hphone & Hwa).
  destruct (String.eqb (given_text preferences "email") "") eqn:He.
  - (* no email: [re] is not bound *)
    apply String.eqb_eq in He. rewrite (validate_try_no_email _ He).
    destruct (String.eqb (given_text preferences "phone") "") eqn:Hp;
      [ | discriminate].
    destruct (String.eqb (given_text preferences "whatsapp") "") eqn:Hw;
      [ | discriminate].
    intros [= <-]. apply String.eqb_eq in Hp, Hw.
    exists "", "", "". rewrite He in Hemail. rewrite Hp in Hphone. rewrite Hw in Hwa.
    rewrite (insert_id _ "email") by exact Hemail.
    rewrite (insert_id _ "phone") by exact Hphone.
    rewrite (insert_id _ "whatsapp") by exact Hwa.
    repeat split; auto.
  - (* an email: [re] is bound *)
    rewrite validate_try_unfold, validate_email_settings, He.
    set (e := given_text preferences "email") in *.
    assert (exists e', (if email_pattern_match e
                        then Some (settings preferences, true)
                        else Some (<["email" := VStr ""]> (settings preferences), true))
                       = Some (<["email" := VStr e']> (settings preferences), true) /\
                       (e' = "" \/ email_pattern_match e' = true))
      as (e' & -> & He').
    { destruct (email_pattern_match e) eqn:Hmatch.
      - exists e. rewrite insert_id by exact Hemail. auto.
      - exists "". auto. }
    set (v3 := <["email" := VStr e']> (settings preferences)).
    assert (v3 !! "phone" = Some (VStr (given_text preferences "phone"))) as Hphone3
      by (unfold v3; rewrite lookup_insert_ne by discriminate; exact Hphone).
    destruct (validate_phone_bound v3 "phone" _ Hphone3) as (q1 & -> & Hq1).
    set (v4 := <["phone" := VStr q1]> v3).
    assert (v4 !! "whatsapp" = Some (VStr (given_text preferences "whatsapp"))) as Hwa4
      by (unfold v4, v3; rewrite !lookup_insert_ne by discriminate; exact Hwa).
    destruct (validate_phone_bound v4 "whatsapp" _ Hwa4) as (q2 & -> & Hq2).
    intros [= <-]. exists e', q1, q2. auto.
Qed.

(** X19: validation answers a set of preferences with exactly the keys of
    the defaults: a key it does not know is never let through, and none
    is lost. *)
Theorem validate_keys preferences :
  dom (validate_user_preferences preferences) = dom DEFAULT_PREFERENCES.
Proof.
  unfold validate_user_preferences.
  destruct (validate_user_preferences_try preferences) as [result | ] eqn:Htry;
    [ | reflexivity].
  apply validate_success in Htry as (e & q1 & q2 & -> & _).
  cbn [from_option id].
  repeat (apply insert_known_key; [ | apply elem_of_dom; vm_compute; eauto]).
  apply settings_dom.
Qed.

(** X20: in the answer of validation the email is empty or has the shape
    the pattern asks for, and the phone and the WhatsApp number are empty
    or made of digits and plus signs only, starting with a plus sign or
    being all digits. *)
Theorem validate_contacts preferences :
  exists e p w,
    validate_user_preferences preferences !! "email" = Some (VStr e) /\
    validate_user_preferences preferences !! "phone" = Some (VStr p) /\
    validate_user_preferences preferences !! "whatsapp" = Some (VStr w) /\
    (e = "" \/ email_pattern_match e = true) /\
    clean_phone p = true /\ clean_phone w = true.
Proof.
  unfold validate_user_preferences.
  destruct (validate_user_preferences_try preferences) as [result | ] eqn:Htry.
  - apply validate_success in Htry as (e & q1 & q2 & -> & He & Hq1 & Hq2).
    exists e, q1, q2. cbn [from_option id].
    rewrite !lookup_insert_ne by discriminate.
    rewrite lookup_insert_eq, (lookup_insert_ne _ "whatsapp" "phone") by discriminate.
    rewrite !lookup_insert_eq. repeat split; assumption.
  - destruct default_preferences_values as (_ & _ & _ & _ & Hemail & Hphone & Hwa).
    exists "", "", "". cbn [from_option id].
    repeat split; (assumption || (left; reflexivity) || reflexivity).
Qed.

(** X21: [re] is imported inside the branch that checks a non-empty
    email. When no usable email is given and a phone or a WhatsApp number
    is, the check of that number raises, and validation answers the
    defaults: every setting that was given is dropped. *)
Theorem validate_without_email preferences :
  given_text preferences "email" = "" ->
  given_text preferences "phone" <> "" \/ given_text preferences "whatsapp" <> "" ->
  validate_user_preferences preferences = DEFAULT_PREFERENCES.
Proof.
  intros He Hnumber. unfold validate_user_preferences.
  rewrite (validate_try_no_email _ He).
  destruct (String.eqb (given_text preferences "phone") "") eqn:Hp;
    [ | reflexivity].
  destruct (String.eqb (given_text preferences "whatsapp") "") eqn:Hw;
    [ | reflexivity].
  apply String.eqb_eq in Hp, Hw. destruct Hnumber; contradiction.
Qed.

Lemma validate_without_email_witness :
  let preferences : gmap string pyval :=
    {[ "push_notifications" := VBool false; "phone" := VStr "+1 555 0100" ]} in
  (given_text preferences "email" = "" /\
   (given_text preferences "phone" <> "" \/ given_text preferences "whatsapp" <> "")) /\
  validate_user_preferences preferences !! "push_notifications" = Some (VBool true).
Proof.
  cbv zeta.
  set (preferences := ({[ "push_notifications" := VBool false;
                          "phone" := VStr "+1 555 0100" ]} : gmap string pyval)).
  assert (given_text preferences "email" = "") as He by (vm_compute; reflexivity).
  assert (given_text preferences "phone" <> ""
          \/ given_text preferences "whatsapp" <> "") as Hnumber
    by (left; vm_compute; discriminate).
  split; [split; assumption | ].
  rewrite (validate_without_email preferences He Hnumber).
  vm_compute. reflexivity.
Defined.

(** *** The shape of an email, as the pattern reads it *)

Lemma split_first_some sep a b :
  count_char sep a = O ->
  split_first sep (a +:+ String sep b) = Some (a, b).
Proof.
  induction a as [ | c a IH]; intros Hnone.
  - change (split_first sep (String sep b) = Some (EmptyString, b)).
    cbn [split_first]. rewrite Ascii.eqb_refl. reflexivity.
  - cbn [count_char] in Hnone. rewrite append_cons. cbn [split_first].
    destruct (Ascii.eqb c sep); [discriminate | ].
    rewrite (IH Hnone). reflexivity.
Qed.

Lemma split_first_inv sep s a b :
  split_first sep s = Some (a, b) -> s = a +:+ String sep b.
Proof.
  revert a. induction s as [ | c s IH]; intros a; [discriminate | ].
  cbn [split_first]. destruct (Ascii.eqb c sep) eqn:Hc.
  - apply Ascii.eqb_eq in Hc as ->. intros [= <- <-]. reflexivity.
  - destruct (split_first sep s) as [[a' b'] | ]; [ | discriminate].
    intros [= <- <-]. rewrite append_cons, (IH a' eq_refl). reflexivity.
Qed.

Lemma split_last_none sep s : count_char sep s = O -> split_last sep s = None.
Proof.
  induction s as [ | c s IH]; [reflexivity | ].
  cbn [count_char split_last]. destruct (Ascii.eqb c sep); [discriminate | ].
  intros Hs. rewrite (IH Hs). reflexivity.
Qed.

Lemma split_last_some sep a b :
  count_char sep b = O ->
  split_last sep (a +:+ String sep b) = Some (a, b).
Proof.
  intros Hnone. induction a as [ | c a IH].
  - change (split_last sep (String sep b) = Some (EmptyString, b)).
    cbn [split_last]. rewrite (split_last_none sep b Hnone), Ascii.eqb_refl.
    reflexivity.
  - rewrite append_cons. cbn [split_last]. rewrite IH. reflexivity.
Qed.

Lemma split_last_inv sep s a b :
  split_last sep s = Some (a, b) -> s = a +:+ String sep b.
Proof.
  revert a. induction s as [ | c s IH]; intros a; [discriminate | ].
  cbn [split_last]. destruct (split_last sep s) as [[a' b'] | ].
  - intros [= <- <-]. rewrite append_cons, (IH a' eq_refl). reflexivity.
  - destruct (Ascii.eqb c sep) eqn:Hc; [ | discriminate].
    apply Ascii.eqb_eq in Hc as ->. intros [= <- <-]. reflexivity.
Qed.

Lemma all_chars_count f sep s :
  f sep = false -> all_chars f s = true -> count_char sep s = O.
Proof.
  intros Hsep. induction s as [ | c s IH]; [reflexivity | ].
  cbn [all_chars count_char]. intros Hs. apply andb_prop in Hs as [Hc Hs].
  destruct (Ascii.eqb c sep) eqn:Heq.
  - apply Ascii.eqb_eq in Heq as ->. congruence.
  - apply IH, Hs.
Qed.

(** [email_shape] accepts exactly the texts that the pattern
    [^[a-zA-Z0-9._%+-]+@[a-zA-Z0-9.-]+\.[a-zA-Z]{2,}$] matches to their
    end: a local part, [@], a domain, a dot and two letters or more. *)
Lemma email_shape_spec s :
  email_shape s = true <->
  exists local_part domain letters,
    s = local_part +:+ "@" +:+ domain +:+ "." +:+ letters /\
    local_part <> "" /\ all_chars local_char local_part = true /\
    domain <> "" /\ all_chars domain_char domain = true /\
    (2 <= String.length letters)%nat /\ all_chars is_alpha letters = true.
Proof.
  unfold email_shape. split.
  - destruct (split_first "@" s) as [[l rest] | ] eqn:Hfirst; [ | discriminate].
    destruct (split_last "." rest) as [[d t] | ] eqn:Hlast; [ | discriminate].
    intros Hok. repeat (apply andb_prop in Hok as [Hok ?]).
    apply split_first_inv in Hfirst. apply split_last_inv in Hlast. subst.
    exists l, d, t. repeat split; try assumption.
    + intros ->. discriminate.
    + intros ->. discriminate.
    + apply Nat.leb_le. assumption.
  - intros (l & d & t & -> & Hl & Hlc & Hd & Hdc & Hlen & Htc).
    change (l +:+ "@" +:+ d +:+ "." +:+ t)
      with (l +:+ String "@" (d +:+ String "." t)).
    rewrite (split_first_some "@" l (d +:+ String "." t))
      by (apply (all_chars_count local_char); [reflexivity | exact Hlc]).
    rewrite (split_last_some "." d t)
      by (apply (all_chars_count is_alpha); [reflexivity | exact Htc]).
    apply String.eqb_neq in Hl, Hd. apply Nat.leb_le in Hlen.
    rewrite Hl, Hlc, Hd, Hdc, Hlen, Htc. reflexivity.
Qed.
